(** * NAV data pull: a shallow embedding of [nav_data_pull_streamlit2.py]

    The script fetches, for every (fund, NAV) ticker pair of a reference
    table, the closing prices on a valuation date and the latest balance-sheet
    figures not newer than that date, and assembles one report row per pair.

    The embedding follows the script top to bottom:
    - Python exceptions are an error monad ([result]) with [try_except]
      for [try: ... except Exception];
    - pandas frames are labelled tables ([DataFrame]) with the accessors the
      script uses ([empty], [loc], membership in the index);
    - numbers are binary64 floats, as numpy hands them out;
    - the market-data provider (yfinance) is a record of the members the
      script reads, each of which may raise;
    - the Streamlit page (button, progress bar, table display, download),
      the spreadsheet export and the [print] in the exception handler only
      produce output and are left out. *)

From Stdlib Require Import ZArith Floats.
From stdpp Require Import base option list strings gmap.

Local Open Scope Z_scope.
#[local] Set Warnings "-inexact-float".

(** ** Exceptions *)

(** [except Exception] catches [Exception] and its subclasses (network
    errors, [KeyError], [ValueError], ...) but not the other subclasses of
    [BaseException] ([KeyboardInterrupt], [SystemExit]). *)
Inductive exn : Type :=
| Exception (msg : string)
| BaseException (msg : string).

Inductive result (A : Type) : Type :=
| Ok (a : A)
| Raise (e : exn).
Arguments Ok {A} a.
Arguments Raise {A} e.

#[global] Instance result_ret : MRet result := @Ok.
#[global] Instance result_bind : MBind result :=
  λ A B f m, match m with Ok a => f a | Raise e => Raise e end.
#[global] Instance result_fmap : FMap result :=
  λ A B f m, match m with Ok a => Ok (f a) | Raise e => Raise e end.

(** [try: body except Exception as e: handler(e)] *)
Definition try_except {A} (body : result A) (handler : string → result A) : result A :=
  match body with
  | Raise (Exception msg) => handler msg
  | r => r
  end.

(** ** Numbers *)

(** Truth value of a number: zero (of either sign) is false, everything
    else, NaN included, is true. *)
Definition float_bool (x : float) : bool := negb (x =? 0)%float.

(** Truth value of a number or [None]. *)
Definition truthy (x : option float) : bool :=
  match x with
  | None => false
  | Some v => float_bool v
  end.

(** [rint]: the nearest integer, ties to even; infinities, NaN and floats
    that are already integers are returned unchanged. *)
Definition rint (x : float) : float :=
  match Prim2SF x with
  | S754_finite s m e =>
      if 0 <=? e then x
      else
        let q := 2 ^ (- e) in
        let n := Z.pos m / q in
        let r := Z.pos m mod q in
        let n' := match 2 * r ?= q with
                  | Lt => n
                  | Gt => n + 1
                  | Eq => if Z.even n then n else n + 1
                  end in
        let y := of_uint63 (Uint63.of_Z n') in
        if s then (- y)%float else y
  | _ => x
  end.

(** [10.0 ** n] by repeated multiplication. *)
Fixpoint power_of_ten (n : nat) : float :=
  match n with
  | O => 1%float
  | S k => (power_of_ten k * 10)%float
  end.

(** [round(x, ndigits)] on a float64 scalar: numpy scales by the power of
    ten, rounds to the nearest integer and scales back. *)
Definition round (x : float) (ndigits : nat) : float :=
  (rint (x * power_of_ten ndigits) / power_of_ten ndigits)%float.

(** ** Dates *)

(** A [datetime.date] is kept as its day number counted from 1970-01-01, a
    pandas [Timestamp] as wall-clock nanoseconds counted from the start of
    that day. *)
Abbreviation date := Z (only parsing).
Abbreviation Timestamp := Z (only parsing).

Definition ns_per_day : Z := 86400 * 1000000000.

(** [pd.Timestamp(d)] of a date: midnight of that day. *)
Definition Timestamp_of_date (d : date) : Timestamp := d * ns_per_day.

(** The calendar day a timestamp falls on. *)
Definition Timestamp_date (t : Timestamp) : date := t / ns_per_day.

(** Year, month and day of a day number (proleptic Gregorian calendar). *)
Definition ymd (d : date) : Z * Z * Z :=
  let z := d + 719468 in
  let era := z / 146097 in
  let doe := z - era * 146097 in
  let yoe := (doe - doe / 1460 + doe / 36524 - doe / 146096) / 365 in
  let doy := doe - (365 * yoe + yoe / 4 - yoe / 100) in
  let mp := (5 * doy + 2) / 153 in
  let day := doy - (153 * mp + 2) / 5 + 1 in
  let month := if mp <? 10 then mp + 3 else mp - 9 in
  let year := yoe + era * 400 + (if month <=? 2 then 1 else 0) in
  (year, month, day).

Definition digit (z : Z) : string :=
  String (Ascii.ascii_of_nat (48 + Z.to_nat (z mod 10))) EmptyString.

Definition digits2 (z : Z) : string := digit (z / 10) +:+ digit z.
Definition digits4 (z : Z) : string := digits2 (z / 100) +:+ digits2 z.

(** [d.strftime('%Y-%m-%d')] for the years 1000 to 9999. *)
Definition strftime (d : date) : string :=
  let '(y, m, dd) := ymd d in
  digits4 y +:+ "-" +:+ digits2 m +:+ "-" +:+ digits2 dd.

(** [index.strftime('%Y-%m-%d')] on a [DatetimeIndex]. *)
Definition index_strftime (idx : list Timestamp) : list string :=
  (strftime ∘ Timestamp_date) <$> idx.

(** ** Data frames *)

(** A pandas [DataFrame]: row labels, column labels and the cells row by
    row.  The frames of this program carry each label once (one bar per
    trading day, one row per line item, one column per report date). *)
Record DataFrame (I C : Type) : Type := {
  index : list I;
  columns : list C;
  values : list (list float)
}.
Arguments index {I C} _.
Arguments columns {I C} _.
Arguments values {I C} _.

(** [df.empty]: some axis has length 0. *)
Definition empty {I C} (df : DataFrame I C) : bool :=
  match index df, columns df with
  | [], _ | _, [] => true
  | _ :: _, _ :: _ => false
  end.

(** The cell at a position; a cell the frame does not hold reads as NaN,
    the missing-value marker of pandas. *)
Definition iloc {I C} (df : DataFrame I C) (i j : nat) : float :=
  default nan (row ← values df !! i; row !! j).

(** [df.loc[r, c]]: the cell at the row labelled [r] and the column
    labelled [c]; [KeyError] when a label is missing.  A label is looked up
    at its first occurrence, which is the cell pandas returns when the
    label occurs once.  For a label that occurs more than once pandas
    returns a [Series] instead of a cell, and the truth tests the script
    applies to it raise [ValueError]; [loc] has no such outcome, so a
    statement that promises a run without exception assumes frames whose
    labels occur once ([unique_labels], [daily_bars]). *)
Definition loc {I C} `{EqDecision I, EqDecision C}
    (df : DataFrame I C) (r : I) (c : C) : result float :=
  match list_find (r =.) (index df), list_find (c =.) (columns df) with
  | Some (i, _), Some (j, _) => Ok (iloc df i j)
  | _, _ => Raise (Exception "KeyError")
  end.

(** [df.index = idx] *)
Definition set_index {I J C} (df : DataFrame I C) (idx : list J) : DataFrame J C :=
  {| index := idx; columns := columns df; values := values df |}.

(** ** The market-data provider *)

(** [yf.Ticker(t)] with the members the script reads: [info],
    [history(start=..., end=..., auto_adjust=False)] and the two balance
    sheets.  Each is a network call and may raise instead of returning; the
    answers are taken as fixed for the length of a run. *)
Record Provider : Type := {
  info : string → result (gmap string string);
  history : string → string → string → result (DataFrame Timestamp string);
  quarterly_balance_sheet : string → result (DataFrame string Timestamp);
  balance_sheet : string → result (DataFrame string Timestamp)
}.

(** ** [get_close_price] *)

Definition get_close_price (yf : Provider) (ticker date_ start end_ : string)
    : result (option float) :=
  try_except
    (data ← history yf ticker start end_;
     if empty data || negb (bool_decide (date_ ∈ index_strftime (index data)))
     then Ok None
     else
       let data := set_index data (index_strftime (index data)) in
       close ← loc data date_ "Close";
       Ok (Some close))
    (λ e, Ok None).

(** ** [get_fundamentals_asof] *)

(** The dictionary the function returns, with its four fixed keys.  The
    key "outside equity" holds [None] in the two early returns and defaults
    to the number 0 otherwise. *)
Record Fundamentals : Type := {
  shares_outstanding : option float;
  total_debt : option float;
  outside_equity : option float;
  report_date : option Timestamp
}.

Definition no_fundamentals : Fundamentals :=
  {| shares_outstanding := None; total_debt := None;
     outside_equity := None; report_date := None |}.

(** [max] of a non-empty list, scanning left to right. *)
Definition max_date (d : Timestamp) (ds : list Timestamp) : Timestamp :=
  foldl Z.max d ds.

(** One fallback loop:
    [for row in rows: if row in balance.index: x = balance.loc[row, latest]; break]
    with [x] holding [init] before the loop. *)
Fixpoint first_row (balance : DataFrame string Timestamp) (latest : Timestamp)
    (rows : list string) (init : option float) : result (option float) :=
  match rows with
  | [] => Ok init
  | row :: rest =>
      if bool_decide (row ∈ index balance)
      then x ← loc balance row latest; Ok (Some x)
      else first_row balance latest rest init
  end.

(** [t.quarterly_balance_sheet if quarterly else t.balance_sheet] *)
Definition fetch_balance (yf : Provider) (ticker : string) (quarterly : bool)
    : result (DataFrame string Timestamp) :=
  if quarterly then quarterly_balance_sheet yf ticker else balance_sheet yf ticker.

Definition get_fundamentals_asof (yf : Provider) (ticker : string)
    (as_of_date : date) (quarterly : bool) : result Fundamentals :=
  balance ← fetch_balance yf ticker quarterly;
  if empty balance then Ok no_fundamentals
  else
    let as_of_date := Timestamp_of_date as_of_date in
    let valid_dates := filter (λ d, d ≤ as_of_date) (columns balance) in
    match valid_dates with
    | [] => Ok no_fundamentals
    | d :: ds =>
        let latest := max_date d ds in
        shares ← first_row balance latest
                   ["Ordinary Shares Number"; "Share Issued"] None;
        debt ← first_row balance latest
                 ["Total Debt"; "Long Term Debt"; "Current Debt"] None;
        otequity ← first_row balance latest
                     ["Preferred Securities Outside Stock Equity"] (Some 0%float);
        Ok {| shares_outstanding := shares; total_debt := debt;
              outside_equity := otequity; report_date := Some latest |}
    end.

(** ** The reference table *)

(** One row of the frame [load_tickers] returns for [Tickers.xlsx], before
    [dropna]; a cell the sheet leaves blank is [None]. *)
Record TickerRow : Type := {
  col_Fund : option string;
  col_NAV : option string;
  col_Fund_Type : option string;
  col_Subcategory : option string;
  col_Broad_Category : option string;
  col_Geographic_Focus : option string
}.

(** A row that survived [dropna]: both tickers are there. *)
Record FundEntry : Type := {
  fund_ticker : string;
  nav_ticker : string;
  fund_type : option string;
  subcategory : option string;
  broad_category : option string;
  region : option string
}.

Definition dropna_row (r : TickerRow) : option FundEntry :=
  fund ← col_Fund r;
  nav ← col_NAV r;
  Some {| fund_ticker := fund; nav_ticker := nav;
          fund_type := col_Fund_Type r;
          subcategory := col_Subcategory r;
          broad_category := col_Broad_Category r;
          region := col_Geographic_Focus r |}.

(** [df.dropna(subset=["Fund", "NAV"])]: the rows holding both cells, in
    their order. *)
Definition dropna (df : list TickerRow) : list FundEntry := omap dropna_row df.

(** ** The report *)

(** One row of the report, a field per output column. *)
Record ReportRow : Type := {
  Fund_Name : string;
  Broad_Category : option string;
  Fund_Type : option string;
  Subcategory : option string;
  Geographic_Focus : option string;
  Date : string;
  Fund_Ticker : string;
  Fund_Close_Price : option float;
  NAV_Ticker : string;
  NAV_Close_Price : option float;
  Discount : option float;
  Shares_Outstanding_M : option float;
  Total_Debt_M : option float
}.

(** What [zip] yields for the six column lists. *)
Definition zipped : Type :=
  string * (string * (option string * (option string * (option string * option string)))).

(** The body of the batch loop, up to [rows.append]. *)
Definition report_row (yf : Provider) (target_date : date)
    (date_str start_date end_date : string) (item : zipped) : result ReportRow :=
  let '(fund, (nav, (types, (subcategories, (broadcats, regions))))) := item in
  info ← info yf fund;
  let fund_name := default fund (info !! "longName") in
  fundamentals ← get_fundamentals_asof yf fund target_date true;
  let shares_outstanding := shares_outstanding fundamentals in
  let total_debt := total_debt fundamentals in
  let outside_equity := outside_equity fundamentals in
  let shares_millions :=
    if truthy shares_outstanding
    then (λ v, round (v / 1000000) 2) <$> shares_outstanding else None in
  let debt_millions :=
    if truthy total_debt
    then (λ v, round (v / 1000000) 2) <$> total_debt else None in
  fund_price ← get_close_price yf fund date_str start_date end_date;
  nav_price ← get_close_price yf nav date_str start_date end_date;
  let discount :=
    if truthy fund_price && truthy nav_price
    then f ← fund_price; n ← nav_price; Some (f / n)%float else None in
  Ok {| Fund_Name := fund_name; Broad_Category := broadcats; Fund_Type := types;
        Subcategory := subcategories; Geographic_Focus := regions;
        Date := date_str; Fund_Ticker := fund; Fund_Close_Price := fund_price;
        NAV_Ticker := nav; NAV_Close_Price := nav_price; Discount := discount;
        Shares_Outstanding_M := shares_millions;
        Total_Debt_M := debt_millions |}.

(** [for ... in zip(...)]: rows are appended one by one; the first
    exception leaves the loop. *)
Fixpoint for_each (body : zipped → result ReportRow) (items : list zipped)
    (rows : list ReportRow) : result (list ReportRow) :=
  match items with
  | [] => Ok rows
  | item :: rest => row ← body item; for_each body rest (rows ++ [row])
  end.

(** The script from the loaded sheet to the rows handed to
    [pd.DataFrame]: the six column lists, the window around the valuation
    date, and the batch loop. *)
Definition build_report (yf : Provider) (xlsx : list TickerRow)
    (target_date : date) : result (list ReportRow) :=
  let df_tickers := dropna xlsx in
  let fund_tickers := fund_ticker <$> df_tickers in
  let nav_tickers := nav_ticker <$> df_tickers in
  let fund_types := fund_type <$> df_tickers in
  let fund_subcats := subcategory <$> df_tickers in
  let fund_broadcats := broad_category <$> df_tickers in
  let fund_regions := region <$> df_tickers in
  let start_date := strftime (target_date - 2) in
  let end_date := strftime (target_date + 2) in
  let date_str := strftime target_date in
  for_each (report_row yf target_date date_str start_date end_date)
    (zip fund_tickers (zip nav_tickers (zip fund_types
       (zip fund_subcats (zip fund_broadcats fund_regions)))))
    [].

(** ** The spreadsheet *)

(** What a cell of a worksheet holds. *)
Inductive xl_value : Type :=
| XlText (s : string)
| XlNumber (x : float).

(** An openpyxl worksheet: the cells it has, by row and column, both
    counted from 1. *)
Abbreviation Worksheet := (gmap (nat * nat) xl_value).

(** [ws.max_row]: the largest row that has a cell, 1 on a sheet without
    cells. *)
Definition max_row (ws : Worksheet) : nat :=
  match map_to_list ws with
  | [] => 1%nat
  | cells => max_list ((fst ∘ fst) <$> cells)
  end.

Definition method : string :=
  "This file was created using python, streamlit, and yfinance to pull NAV pricing.".

(** The provenance note written into the reloaded sheet; [timestamp] is
    [datetime.now()] rendered by the script. *)
Definition write_note (ws : Worksheet) (timestamp : string) : Worksheet :=
  let message_row := (max_row ws + 2)%nat in
  <[(message_row, 1%nat) :=
      XlText ("Downloaded on " +:+ timestamp +:+ ". Method: " +:+ method)]> ws.

(** ** Vocabulary of the statements *)

(** Every row label and every column label of the frame occurs once. *)
Definition unique_labels {I C} (df : DataFrame I C) : Prop :=
  NoDup (index df) ∧ NoDup (columns df).

(** A price series of daily bars: one bar per calendar day, every column
    once. *)
Definition daily_bars (data : DataFrame Timestamp string) : Prop :=
  NoDup (index_strftime (index data)) ∧ NoDup (columns data).

(** A sheet row with both tickers. *)
Definition complete (r : TickerRow) : Prop :=
  is_Some (col_Fund r) ∧ is_Some (col_NAV r).

#[global] Instance complete_dec (r : TickerRow) : Decision (complete r).
Proof. unfold complete. apply _. Defined.

(** A kept entry read back as the sheet row it came from. *)
Definition entry_row (e : FundEntry) : TickerRow :=
  {| col_Fund := Some (fund_ticker e); col_NAV := Some (nav_ticker e);
     col_Fund_Type := fund_type e; col_Subcategory := subcategory e;
     col_Broad_Category := broad_category e;
     col_Geographic_Focus := region e |}.

(** The entry a report row was built for, read off its columns. *)
Definition row_entry (row : ReportRow) : FundEntry :=
  {| fund_ticker := Fund_Ticker row; nav_ticker := NAV_Ticker row;
     fund_type := Fund_Type row; subcategory := Subcategory row;
     broad_category := Broad_Category row; region := Geographic_Focus row |}.

(** The tuple [zip] yields for an entry. *)
Definition item_of (e : FundEntry) : zipped :=
  (fund_ticker e, (nav_ticker e, (fund_type e,
    (subcategory e, (broad_category e, region e))))).

(** [y] is [x] in millions at two decimals when [x] is a non-zero number,
    and absent when [x] is absent or zero. *)
Definition scaled_to_millions (x y : option float) : Prop :=
  match x with
  | None => y = None
  | Some v =>
      if float_bool v then y = Some (round (v / 1000000) 2) else y = None
  end.

(** [d] is the ratio of the two prices when both are non-zero numbers, and
    absent otherwise. *)
Definition ratio_of (fund_price nav_price d : option float) : Prop :=
  match fund_price, nav_price with
  | Some f, Some n =>
      if float_bool f && float_bool n then d = Some (f / n)%float else d = None
  | _, _ => d = None
  end.

(** A field of the returned snapshot is the cell of line item [row] in
    the column of the report the snapshot was taken from. *)
Definition resolved_from (r : result Fundamentals)
    (balance : DataFrame string Timestamp)
    (field : Fundamentals → option float) (row : string) : Prop :=
  ∃ f latest v,
    r = Ok f ∧ report_date f = Some latest
    ∧ loc balance row latest = Ok v ∧ field f = Some v.

(** Two fetched sheets that differ at most in the cells of one line item. *)
Inductive same_but_row (row : string)
    : relation (result (DataFrame string Timestamp)) :=
| same_fault (e : exn) : same_but_row row (Raise e) (Raise e)
| same_cells (b1 b2 : DataFrame string Timestamp) :
    index b1 = index b2 → columns b1 = columns b2 →
    (∀ r c, r ≠ row → loc b1 r c = loc b2 r c) →
    same_but_row row (Ok b1) (Ok b2).

(** Two providers that answer alike except for the cells of one
    balance-sheet line item. *)
Record same_but_line_item (row : string) (yf1 yf2 : Provider) : Prop := {
  same_info : ∀ t, info yf1 t = info yf2 t;
  same_history : ∀ t s e, history yf1 t s e = history yf2 t s e;
  same_quarterly :
    ∀ t, same_but_row row (quarterly_balance_sheet yf1 t)
                          (quarterly_balance_sheet yf2 t);
  same_annual :
    ∀ t, same_but_row row (balance_sheet yf1 t) (balance_sheet yf2 t)
}.

(** ** Sample data

    A small provider and reference table on which the statements below are
    exercised: the valuation date is 2024-03-15 (day 19797). *)

Definition midnight (d : date) : Timestamp := Timestamp_of_date d.

(** Daily bars of the fund: 2024-03-14 and 2024-03-15. *)
Definition pdi_bars : DataFrame Timestamp string :=
  {| index := [midnight 19796; midnight 19797];
     columns := ["Open"; "Close"];
     values := [[9.40; 9.45]; [9.45; 9.50]]%float |}.

(** Daily bars of its NAV ticker. *)
Definition xpdix_bars : DataFrame Timestamp string :=
  {| index := [midnight 19796; midnight 19797];
     columns := ["Open"; "Close"];
     values := [[10; 10]; [10; 10]]%float |}.

(** Quarterly balance sheet: reports dated 2024-03-31, 2023-12-31 and
    2023-09-30, newest first. *)
Definition pdi_balance : DataFrame string Timestamp :=
  {| index := ["Ordinary Shares Number"; "Share Issued"; "Total Debt";
               "Long Term Debt"; "Preferred Securities Outside Stock Equity"];
     columns := [midnight 19813; midnight 19722; midnight 19630];
     values := [[12400000; 12345678; 12000000];
                [12500000; 12445678; 12100000];
                [5100000; 5000000; 4900000];
                [3100000; 3000000; 2900000];
                [760000; 750000; 740000]]%float |}.

Definition demo_info : gmap string string :=
  {[ "longName" := "PIMCO Dynamic Income Fund" ]}.

Definition yf_demo : Provider :=
  {| info := λ t, if String.eqb t "PDI" then Ok demo_info else Ok ∅;
     history := λ t _ _,
       if String.eqb t "PDI" then Ok pdi_bars
       else if String.eqb t "XPDIX" then Ok xpdix_bars
       else Raise (Exception "No data found, symbol may be delisted");
     quarterly_balance_sheet := λ t,
       if String.eqb t "PDI" then Ok pdi_balance
       else Ok {| index := []; columns := []; values := [] |};
     balance_sheet := λ _, Ok {| index := []; columns := []; values := [] |} |}.

Definition demo_xlsx : list TickerRow :=
  [ {| col_Fund := Some "PDI"; col_NAV := Some "XPDIX";
       col_Fund_Type := Some "Closed-End"; col_Subcategory := Some "Multisector";
       col_Broad_Category := Some "Taxable Bond";
       col_Geographic_Focus := Some "Global" |};
    {| col_Fund := Some "GOF"; col_NAV := None;
       col_Fund_Type := Some "Closed-End"; col_Subcategory := None;
       col_Broad_Category := Some "Taxable Bond";
       col_Geographic_Focus := Some "US" |} ].

(** The demo provider with another quarterly balance-sheet answer, or with
    another price-history answer. *)
Definition with_quarterly (yf : Provider)
    (sheet : string → result (DataFrame string Timestamp)) : Provider :=
  {| info := info yf; history := history yf;
     quarterly_balance_sheet := sheet; balance_sheet := balance_sheet yf |}.

Definition with_history (yf : Provider)
    (bars : string → string → string → result (DataFrame Timestamp string))
    : Provider :=
  {| info := info yf; history := bars;
     quarterly_balance_sheet := quarterly_balance_sheet yf;
     balance_sheet := balance_sheet yf |}.

(** The balance-sheet request fails. *)
Definition yf_outage : Provider :=
  with_quarterly yf_demo (λ _, Raise (Exception "HTTPError: 429 Too Many Requests")).

(** A sheet with a report date but no line items. *)
Definition zero_row_balance : DataFrame string Timestamp :=
  {| index := []; columns := [midnight 19722]; values := [] |}.

Definition yf_zero_rows : Provider :=
  with_quarterly yf_demo (λ _, Ok zero_row_balance).

(** The fund closed at 0.0 on the valuation date. *)
Definition pdi_bars_zero : DataFrame Timestamp string :=
  {| index := [midnight 19796; midnight 19797];
     columns := ["Open"; "Close"];
     values := [[9.40; 9.45]; [9.45; 0]]%float |}.

Definition yf_zero_close : Provider :=
  with_history yf_demo (λ t s e,
    if String.eqb t "PDI" then Ok pdi_bars_zero else history yf_demo t s e).

(** A fund that reports a total debt of zero. *)
Definition debt_free_balance : DataFrame string Timestamp :=
  {| index := ["Ordinary Shares Number"; "Total Debt"];
     columns := [midnight 19722];
     values := [[12345678]; [0]]%float |}.

Definition yf_debt_free : Provider :=
  with_quarterly yf_demo (λ _, Ok debt_free_balance).

(** The demo balance sheet with other figures in the outside-equity line. *)
Definition pdi_balance' : DataFrame string Timestamp :=
  {| index := index pdi_balance;
     columns := columns pdi_balance;
     values := [[12400000; 12345678; 12000000];
                [12500000; 12445678; 12100000];
                [5100000; 5000000; 4900000];
                [3100000; 3000000; 2900000];
                [0; 990000; 1]]%float |}.

Definition yf_demo' : Provider :=
  with_quarterly yf_demo (λ t,
    if String.eqb t "PDI" then Ok pdi_balance'
    else quarterly_balance_sheet yf_demo t).

(** The report row of PDI on the demo data. *)
Definition pdi_row : ReportRow :=
  {| Fund_Name := "PIMCO Dynamic Income Fund";
     Broad_Category := Some "Taxable Bond"; Fund_Type := Some "Closed-End";
     Subcategory := Some "Multisector"; Geographic_Focus := Some "Global";
     Date := "2024-03-15"; Fund_Ticker := "PDI";
     Fund_Close_Price := Some 9.5%float;
     NAV_Ticker := "XPDIX"; NAV_Close_Price := Some 10%float;
     Discount := Some 0.95%float;
     Shares_Outstanding_M := Some 12.35%float;
     Total_Debt_M := Some 5%float |}.

(** The demo provider with another annual balance-sheet answer. *)
Definition with_annual (yf : Provider)
    (sheet : string → result (DataFrame string Timestamp)) : Provider :=
  {| info := info yf; history := history yf;
     quarterly_balance_sheet := quarterly_balance_sheet yf;
     balance_sheet := sheet |}.

Definition yf_annual : Provider := with_annual yf_demo (λ _, Ok pdi_balance).

(** The demo balance sheet after the report of 2024-03-31, which lies after
    the valuation date, was restated. *)
Definition pdi_balance_restated : DataFrame string Timestamp :=
  {| index := index pdi_balance;
     columns := columns pdi_balance;
     values := [[13000000; 12345678; 12000000];
                [13100000; 12445678; 12100000];
                [0; 5000000; 4900000];
                [0; 3000000; 2900000];
                [1; 750000; 740000]]%float |}.

Definition yf_restated : Provider :=
  with_quarterly yf_demo (λ t,
    if String.eqb t "PDI" then Ok pdi_balance_restated
    else quarterly_balance_sheet yf_demo t).

(** A sheet that lists "Ordinary Shares Number" without a figure for its
    only report. *)
Definition nan_balance : DataFrame string Timestamp :=
  {| index := ["Ordinary Shares Number"; "Share Issued"; "Total Debt"];
     columns := [midnight 19722];
     values := [[nan]; [12445678]; [5000000]]%float |}.

Definition yf_nan : Provider := with_quarterly yf_demo (λ _, Ok nan_balance).

(** The run is interrupted during a price request. *)
Definition yf_interrupted : Provider :=
  with_history yf_demo (λ _ _ _, Raise (BaseException "KeyboardInterrupt")).

(** A table whose only fund the demo provider knows nothing about. *)
Definition gof_xlsx : list TickerRow :=
  [ {| col_Fund := Some "GOF"; col_NAV := Some "XGOFX";
       col_Fund_Type := Some "Closed-End"; col_Subcategory := None;
       col_Broad_Category := Some "Taxable Bond";
       col_Geographic_Focus := Some "US" |} ].

Definition gof_row : ReportRow :=
  {| Fund_Name := "GOF";
     Broad_Category := Some "Taxable Bond"; Fund_Type := Some "Closed-End";
     Subcategory := None; Geographic_Focus := Some "US";
     Date := "2024-03-15"; Fund_Ticker := "GOF"; Fund_Close_Price := None;
     NAV_Ticker := "XGOFX"; NAV_Close_Price := None; Discount := None;
     Shares_Outstanding_M := None; Total_Debt_M := None |}.

(** The snapshot of PDI on the demo data, taken from the report of
    2023-12-31. *)
Definition pdi_snapshot : Fundamentals :=
  {| shares_outstanding := Some 12345678%float;
     total_debt := Some 5000000%float;
     outside_equity := Some 750000%float;
     report_date := Some (midnight 19722) |}.

(** The fund's bars arrive, every other price request fails. *)
Definition yf_nav_down : Provider :=
  with_history yf_demo (λ t _ _,
    if String.eqb t "PDI" then Ok pdi_bars
    else Raise (Exception "ConnectionError")).

(** A small reloaded sheet: some header cells in row 1 and the cells of
    one report row below. *)
Definition small_sheet : Worksheet :=
  {[ (1%nat, 1%nat) := XlText "Fund Name";
     (1%nat, 7%nat) := XlText "Fund Ticker";
     (1%nat, 8%nat) := XlText "Fund Close Price";
     (2%nat, 1%nat) := XlText "PIMCO Dynamic Income Fund";
     (2%nat, 7%nat) := XlText "PDI";
     (2%nat, 8%nat) := XlNumber 9.5%float ]}.

(** * Properties *)

(** ** Numbers and dates *)

Example strftime_epoch : strftime 0 = "1970-01-01".
Proof. reflexivity. Qed.

Example strftime_leap_day : strftime 19782 = "2024-02-29".
Proof. reflexivity. Qed.

Example strftime_valuation_day :
  strftime 19797 = "2024-03-15"
  ∧ strftime (19797 - 2) = "2024-03-13" ∧ strftime (19797 + 2) = "2024-03-17".
Proof. repeat split; reflexivity. Qed.

Example strftime_end_of_year : strftime 10956 = "1999-12-31".
Proof. reflexivity. Qed.

(** A timestamp during a day renders as that day. *)
Example index_strftime_close_of_day :
  index_strftime [midnight 19797 + 16 * 3600 * 1000000000] = ["2024-03-15"].
Proof. reflexivity. Qed.

Example rint_examples :
  rint 1234.5678 = 1235%float ∧ rint 0.5 = 0%float ∧ rint 1.5 = 2%float
  ∧ rint 2.5 = 2%float ∧ rint (-1.5) = (-2)%float ∧ rint infinity = infinity.
Proof. repeat split; reflexivity. Qed.

Example round_examples :
  round (12345678 / 1000000) 2 = 12.35%float
  ∧ round (5000000 / 1000000) 2 = 5%float
  ∧ round 2.675 2 = 2.68%float.
Proof. repeat split; reflexivity. Qed.

Example truth_values :
  float_bool 0 = false ∧ float_bool (-0) = false
  ∧ float_bool nan = true ∧ float_bool 9.5 = true
  ∧ truthy None = false.
Proof. repeat split; reflexivity. Qed.

(** ** The error monad *)

Lemma bind_Ok {A B} (m : result A) (f : A → result B) (b : B) :
  m ≫= f = Ok b ↔ ∃ a, m = Ok a ∧ f a = Ok b.
Proof.
  destruct m as [a|e]; simpl; split.
  - intros Hf. exists a. split; [reflexivity | exact Hf].
  - intros (a' & [= <-] & Hf). exact Hf.
  - discriminate.
  - intros (a' & Hm & _). discriminate Hm.
Qed.

(** A handler that returns normally swallows every [Exception]. *)
Lemma try_except_swallows {A} (body : result A) (a : A) (msg : string) :
  try_except body (λ _, Ok a) ≠ Raise (Exception msg).
Proof. destruct body as [x|[m|m]]; simpl; discriminate. Qed.

(** ** Frames *)

Section frames.
Context {I C : Type} `{!EqDecision I, !EqDecision C}.
Implicit Types df : DataFrame I C.

Lemma empty_false df : empty df = false ↔ index df ≠ [] ∧ columns df ≠ [].
Proof.
  unfold empty. destruct (index df), (columns df); simpl;
    (split; [intros ?|intros [? ?]]); congruence || (split; discriminate).
Qed.

Lemma empty_true df : empty df = true ↔ index df = [] ∨ columns df = [].
Proof.
  unfold empty. destruct (index df), (columns df); simpl;
    (split; [intros ?|intros [?|?]]); auto; discriminate.
Qed.

(** A label that occurs once is found at its position. *)
Lemma list_find_eq_NoDup {X} `{EqDecision X} (x : X) (l : list X) (i : nat) :
  NoDup l → l !! i = Some x → list_find (x =.) l = Some (i, x).
Proof.
  intros Hnd Hi. apply list_find_Some. split_and!; [exact Hi | reflexivity |].
  intros j y Hj Hlt <-.
  pose proof (NoDup_lookup l i j x Hnd Hi Hj). lia.
Qed.

(** [loc] succeeds on labels the frame carries. *)
Lemma loc_present df (r : I) (c : C) :
  r ∈ index df → c ∈ columns df → ∃ v, loc df r c = Ok v.
Proof.
  intros Hr Hc. unfold loc.
  destruct (list_find_elem_of (r =.) (index df) r Hr eq_refl) as [[i y] ->].
  destruct (list_find_elem_of (c =.) (columns df) c Hc eq_refl) as [[j z] ->].
  eauto.
Qed.

(** With labels that occur once, [loc] reads the cell at their positions. *)
Lemma loc_position df (r : I) (c : C) (i j : nat) :
  NoDup (index df) → NoDup (columns df) →
  index df !! i = Some r → columns df !! j = Some c →
  loc df r c = Ok (iloc df i j).
Proof.
  intros Hi Hj Hr Hc. unfold loc.
  rewrite (list_find_eq_NoDup r _ i Hi Hr), (list_find_eq_NoDup c _ j Hj Hc).
  reflexivity.
Qed.

Lemma loc_missing_column df (r : I) (c : C) :
  c ∉ columns df → loc df r c = Raise (Exception "KeyError").
Proof.
  intros Hc. unfold loc.
  destruct (list_find (c =.) (columns df)) as [[j y]|] eqn:Hf.
  - apply list_find_Some in Hf as (Hy & <- & _).
    exfalso. apply Hc. apply list_elem_of_lookup. eauto.
  - destruct (list_find (r =.) (index df)) as [[i y]|]; reflexivity.
Qed.
End frames.

(** ** [get_close_price] *)

Section close_price.
Variable yf : Provider.
Variables ticker date_ start end_ : string.

(** The handler turns every [Exception] of the body into [None]. *)
Lemma get_close_price_no_Exception (msg : string) :
  get_close_price yf ticker date_ start end_ ≠ Raise (Exception msg).
Proof. unfold get_close_price. apply try_except_swallows. Qed.

Lemma get_close_price_fault (msg : string) :
  history yf ticker start end_ = Raise (Exception msg) →
  get_close_price yf ticker date_ start end_ = Ok None.
Proof. intros Hh. unfold get_close_price. rewrite Hh. reflexivity. Qed.

(** Only what [except Exception] does not catch leaves the function, and
    only the provider raises it. *)
Lemma get_close_price_Raise (e : exn) :
  get_close_price yf ticker date_ start end_ = Raise e →
  history yf ticker start end_ = Raise e.
Proof.
  unfold get_close_price.
  destruct (history yf ticker start end_) as [data|[msg|msg]]; simpl;
    [|discriminate|by intros [= <-]].
  destruct (empty data || _); simpl; [discriminate|].
  unfold loc.
  destruct (list_find _ (index _)) as [[i x]|];
    [destruct (list_find _ (columns _)) as [[j y]|]|]; simpl; discriminate.
Qed.

Variable data : DataFrame Timestamp string.
Hypothesis history_data : history yf ticker start end_ = Ok data.

Lemma get_close_price_empty :
  empty data = true → get_close_price yf ticker date_ start end_ = Ok None.
Proof.
  intros He. unfold get_close_price. rewrite history_data. simpl.
  rewrite He. reflexivity.
Qed.

Lemma get_close_price_other_day :
  date_ ∉ index_strftime (index data) →
  get_close_price yf ticker date_ start end_ = Ok None.
Proof.
  intros Hd. unfold get_close_price. rewrite history_data. simpl.
  rewrite (bool_decide_eq_false_2 _ Hd), orb_true_r. reflexivity.
Qed.

Lemma get_close_price_no_Close :
  "Close" ∉ columns data →
  get_close_price yf ticker date_ start end_ = Ok None.
Proof.
  intros Hc. unfold get_close_price. rewrite history_data. simpl.
  destruct (empty data || _); [reflexivity|].
  rewrite loc_missing_column; [reflexivity | exact Hc].
Qed.

Lemma get_close_price_that_day (i j : nat) (t : Timestamp) :
  NoDup (index_strftime (index data)) → NoDup (columns data) →
  index data !! i = Some t → strftime (Timestamp_date t) = date_ →
  columns data !! j = Some "Close" →
  get_close_price yf ticker date_ start end_ = Ok (Some (iloc data i j)).
Proof.
  intros Hdays Hcols Hi Ht Hj.
  assert (Hday : index_strftime (index data) !! i = Some date_).
  { unfold index_strftime. rewrite list_lookup_fmap, Hi. simpl. by rewrite Ht. }
  assert (Hnonempty : empty data = false).
  { apply empty_false. split; intros Hnil; rewrite Hnil in *; discriminate. }
  assert (Hin : date_ ∈ index_strftime (index data)).
  { apply list_elem_of_lookup. eauto. }
  unfold get_close_price. rewrite history_data. simpl.
  rewrite Hnonempty, (bool_decide_eq_true_2 _ Hin). simpl.
  rewrite (loc_position _ date_ "Close" i j); [reflexivity|done..].
Qed.
End close_price.

(** The lookup depends on the provider through the price history only. *)
Lemma get_close_price_same (yf1 yf2 : Provider) (ticker date_ start end_ : string) :
  history yf1 ticker start end_ = history yf2 ticker start end_ →
  get_close_price yf1 ticker date_ start end_
  = get_close_price yf2 ticker date_ start end_.
Proof. intros Hh. unfold get_close_price. by rewrite Hh. Qed.

(** ** [get_fundamentals_asof] *)

Lemma max_date_elem (d : Timestamp) (ds : list Timestamp) : max_date d ds ∈ d :: ds.
Proof.
  unfold max_date. revert d. induction ds as [|x ds IH]; intros d; simpl.
  - apply list_elem_of_here.
  - destruct (Z.max_spec d x) as [[_ ->]|[_ ->]].
    + apply list_elem_of_further, IH.
    + specialize (IH d). apply elem_of_cons in IH as [->|IH].
      * apply list_elem_of_here.
      * do 2 apply list_elem_of_further. exact IH.
Qed.

Lemma max_date_ge (d : Timestamp) (ds : list Timestamp) (x : Timestamp) :
  x ∈ d :: ds → x ≤ max_date d ds.
Proof.
  unfold max_date. revert d x. induction ds as [|y ds IH]; intros d x; simpl.
  - intros ->%list_elem_of_singleton. lia.
  - intros Hx. assert (Hmono : Z.max d y ≤ foldl Z.max (Z.max d y) ds).
    { apply IH, list_elem_of_here. }
    apply elem_of_cons in Hx as [->|Hx]; [lia|].
    apply elem_of_cons in Hx as [->|Hx]; [lia|].
    apply IH, list_elem_of_further, Hx.
Qed.

Section fallback.
Variable balance : DataFrame string Timestamp.
Variable latest : Timestamp.
Hypothesis latest_column : latest ∈ columns balance.

(** First present wins: the loop reads the first candidate the index
    holds, and keeps the initial value when it holds none. *)
Lemma first_row_spec (rows : list string) (init : option float) :
  match list_find (λ row, row ∈ index balance) rows with
  | Some (_, row) =>
      ∃ v, loc balance row latest = Ok v
           ∧ first_row balance latest rows init = Ok (Some v)
  | None => first_row balance latest rows init = Ok init
  end.
Proof.
  induction rows as [|row rest IH]; simpl; [reflexivity|].
  case_bool_decide as Hrow.
  - rewrite decide_True by exact Hrow. simpl.
    destruct (loc_present balance row latest Hrow latest_column) as [v Hv].
    exists v. rewrite Hv. split; reflexivity.
  - rewrite decide_False by exact Hrow.
    destruct (list_find _ rest) as [[i r]|]; simpl; exact IH.
Qed.

Lemma first_row_total (rows : list string) (init : option float) :
  ∃ x, first_row balance latest rows init = Ok x.
Proof.
  pose proof (first_row_spec rows init) as Hs.
  destruct (list_find _ rows) as [[i r]|]; [|eauto].
  destruct Hs as (v & _ & ->). eauto.
Qed.

Lemma first_row_here (row : string) (rest : list string) (init : option float) :
  row ∈ index balance →
  ∃ v, loc balance row latest = Ok v
       ∧ first_row balance latest (row :: rest) init = Ok (Some v).
Proof.
  intros Hrow. simpl. rewrite (bool_decide_eq_true_2 _ Hrow).
  destruct (loc_present balance row latest Hrow latest_column) as [v Hv].
  exists v. rewrite Hv. split; reflexivity.
Qed.

Lemma first_row_skip (row : string) (rest : list string) (init : option float) :
  row ∉ index balance →
  first_row balance latest (row :: rest) init = first_row balance latest rest init.
Proof. intros Hrow. simpl. by rewrite (bool_decide_eq_false_2 _ Hrow). Qed.
End fallback.

Section fundamentals.
Variable yf : Provider.
Variable ticker : string.
Variable as_of_date : date.
Variable quarterly : bool.

Lemma get_fundamentals_asof_fault (e : exn) :
  fetch_balance yf ticker quarterly = Raise e →
  get_fundamentals_asof yf ticker as_of_date quarterly = Raise e.
Proof. intros Hb. unfold get_fundamentals_asof. rewrite Hb. reflexivity. Qed.

Variable balance : DataFrame string Timestamp.
Hypothesis fetched : fetch_balance yf ticker quarterly = Ok balance.

Let valid_dates : list Timestamp :=
  filter (λ d, d ≤ Timestamp_of_date as_of_date) (columns balance).

Lemma get_fundamentals_asof_empty :
  empty balance = true →
  get_fundamentals_asof yf ticker as_of_date quarterly = Ok no_fundamentals.
Proof.
  intros He. unfold get_fundamentals_asof. rewrite fetched. simpl.
  rewrite He. reflexivity.
Qed.

Lemma get_fundamentals_asof_no_valid_date :
  valid_dates = [] →
  get_fundamentals_asof yf ticker as_of_date quarterly = Ok no_fundamentals.
Proof.
  intros Hv. unfold get_fundamentals_asof. rewrite fetched. simpl.
  destruct (empty balance); [reflexivity|].
  fold valid_dates. rewrite Hv. reflexivity.
Qed.

(** The snapshot of a non-empty sheet with a report not newer than the
    as-of date: the three fallback loops run on the newest such report. *)
Lemma get_fundamentals_asof_snapshot (d : Timestamp) (ds : list Timestamp) :
  empty balance = false → valid_dates = d :: ds →
  ∃ shares debt otequity,
    first_row balance (max_date d ds)
      ["Ordinary Shares Number"; "Share Issued"] None = Ok shares
    ∧ first_row balance (max_date d ds)
        ["Total Debt"; "Long Term Debt"; "Current Debt"] None = Ok debt
    ∧ first_row balance (max_date d ds)
        ["Preferred Securities Outside Stock Equity"] (Some 0%float) = Ok otequity
    ∧ get_fundamentals_asof yf ticker as_of_date quarterly
      = Ok {| shares_outstanding := shares; total_debt := debt;
              outside_equity := otequity;
              report_date := Some (max_date d ds) |}.
Proof.
  intros He Hv.
  assert (Hcol : max_date d ds ∈ columns balance).
  { pose proof (max_date_elem d ds) as Hm. rewrite <- Hv in Hm.
    apply list_elem_of_filter in Hm as [_ Hm]. exact Hm. }
  destruct (first_row_total balance _ Hcol
              ["Ordinary Shares Number"; "Share Issued"] None) as [shares Hs].
  destruct (first_row_total balance _ Hcol
              ["Total Debt"; "Long Term Debt"; "Current Debt"] None) as [debt Hd].
  destruct (first_row_total balance _ Hcol
              ["Preferred Securities Outside Stock Equity"] (Some 0%float))
    as [otequity Ho].
  exists shares, debt, otequity. split_and!; [done..|].
  simpl in Hs, Hd, Ho.
  unfold get_fundamentals_asof. rewrite fetched. simpl. rewrite He.
  fold valid_dates. rewrite Hv, Hs. simpl. rewrite Hd. simpl. rewrite Ho.
  reflexivity.
Qed.

(** The balance-sheet fetch is the only step that can raise. *)
Lemma get_fundamentals_asof_total :
  ∃ f, get_fundamentals_asof yf ticker as_of_date quarterly = Ok f.
Proof.
  destruct (empty balance) eqn:He.
  { eexists. by apply get_fundamentals_asof_empty. }
  destruct valid_dates as [|d ds] eqn:Hv.
  { eexists. by apply get_fundamentals_asof_no_valid_date. }
  destruct (get_fundamentals_asof_snapshot d ds He Hv) as (?&?&?&_&_&_&->).
  eauto.
Qed.
End fundamentals.

(** ** The batch loop *)

Lemma zip_fmap_pair {A B C} (f : A → B) (g : A → C) (l : list A) :
  zip (f <$> l) (g <$> l) = (λ x, (f x, g x)) <$> l.
Proof. induction l as [|x l IH]; [reflexivity | simpl; f_equal; exact IH]. Qed.

Lemma zip_columns (df : list FundEntry) :
  zip (fund_ticker <$> df) (zip (nav_ticker <$> df) (zip (fund_type <$> df)
    (zip (subcategory <$> df) (zip (broad_category <$> df) (region <$> df)))))
  = item_of <$> df.
Proof. by rewrite !zip_fmap_pair. Qed.

Lemma dropna_filter (xlsx : list TickerRow) :
  entry_row <$> dropna xlsx = filter complete xlsx.
Proof.
  unfold dropna. induction xlsx as [|r xlsx IH]; [reflexivity|].
  destruct r as [[fund|] [nav|] ty sub bc rg]; simpl.
  - rewrite filter_cons_True by (split; eauto). simpl. by rewrite <- IH.
  - rewrite filter_cons_False by (intros [_ [? [=]]]). exact IH.
  - rewrite filter_cons_False by (intros [[? [=]] _]). exact IH.
  - rewrite filter_cons_False by (intros [[? [=]] _]). exact IH.
Qed.

Section loop.
Variable body : zipped → result ReportRow.

Lemma for_each_Ok (items : list zipped) (rows out : list ReportRow) :
  for_each body items rows = Ok out ↔
  ∃ new, out = rows ++ new ∧ Forall2 (λ item row, body item = Ok row) items new.
Proof.
  revert rows. induction items as [|item rest IH]; intros rows; simpl.
  - split.
    + intros [= <-]. exists []. by rewrite app_nil_r.
    + intros (new & -> & Hnew). apply Forall2_nil_inv_l in Hnew as ->.
      by rewrite app_nil_r.
  - rewrite bind_Ok. split.
    + intros (row & Hrow & Hrest). apply IH in Hrest as (new & -> & Hnew).
      exists (row :: new). rewrite <- app_assoc. split; [done|].
      by constructor.
    + intros (new & -> & Hnew).
      apply Forall2_cons_inv_l in Hnew as (row & new' & Hrow & Hnew & ->).
      exists row. split; [done|]. apply IH. exists new'.
      by rewrite <- app_assoc.
Qed.

Lemma for_each_Raise (items : list zipped) (rows : list ReportRow) (e : exn) :
  for_each body items rows = Raise e →
  ∃ item, item ∈ items ∧ body item = Raise e.
Proof.
  revert rows. induction items as [|item rest IH]; intros rows; simpl;
    [discriminate|].
  destruct (body item) as [row|e'] eqn:Hb; simpl.
  - intros (it & Hit & Hr)%IH. exists it. split; [by right | done].
  - intros [= ->]. exists item. split; [by left | done].
Qed.
End loop.

Lemma for_each_ext (body1 body2 : zipped → result ReportRow)
    (items : list zipped) (rows : list ReportRow) :
  (∀ item, item ∈ items → body1 item = body2 item) →
  for_each body1 items rows = for_each body2 items rows.
Proof.
  revert rows. induction items as [|item rest IH]; intros rows Hext; simpl;
    [reflexivity|].
  rewrite <- (Hext item) by left.
  destruct (body1 item) as [row|e]; simpl; [|reflexivity].
  apply IH. intros it Hit. apply Hext. by right.
Qed.

Lemma build_report_loop (yf : Provider) (xlsx : list TickerRow) (target_date : date) :
  build_report yf xlsx target_date
  = for_each (report_row yf target_date (strftime target_date)
                (strftime (target_date - 2)) (strftime (target_date + 2)))
      (item_of <$> dropna xlsx) [].
Proof. unfold build_report. cbv zeta. by rewrite zip_columns. Qed.

Lemma get_fundamentals_asof_Raise (yf : Provider) (ticker : string)
    (as_of_date : date) (quarterly : bool) (e : exn) :
  get_fundamentals_asof yf ticker as_of_date quarterly = Raise e →
  fetch_balance yf ticker quarterly = Raise e.
Proof.
  destruct (fetch_balance yf ticker quarterly) as [balance|e'] eqn:Hb.
  - destruct (get_fundamentals_asof_total yf ticker as_of_date quarterly
                balance Hb) as [f ->].
    discriminate.
  - rewrite (get_fundamentals_asof_fault _ _ _ _ e' Hb). by intros [= ->].
Qed.

Lemma scaled_to_millions_intro (x : option float) :
  scaled_to_millions x
    (if truthy x then (λ v, round (v / 1000000) 2) <$> x else None).
Proof. destruct x as [v|]; simpl; [|reflexivity]. by destruct (float_bool v). Qed.

Lemma ratio_of_intro (fund_price nav_price : option float) :
  ratio_of fund_price nav_price
    (if truthy fund_price && truthy nav_price
     then f ← fund_price; n ← nav_price; Some (f / n)%float else None).
Proof.
  destruct fund_price as [f|], nav_price as [n|]; simpl; try reflexivity.
  - by destruct (float_bool f && float_bool n).
  - by destruct (float_bool f).
Qed.

Section row.
Variable yf : Provider.
Variable target_date : date.
Variables date_str start_date end_date : string.
Variable entry : FundEntry.

Let fund := fund_ticker entry.
Let nav := nav_ticker entry.

(** What a row that was built holds. *)
Lemma report_row_Ok (row : ReportRow) :
  report_row yf target_date date_str start_date end_date (item_of entry) = Ok row →
  ∃ i f,
    info yf fund = Ok i
    ∧ get_fundamentals_asof yf fund target_date true = Ok f
    ∧ get_close_price yf fund date_str start_date end_date
      = Ok (Fund_Close_Price row)
    ∧ get_close_price yf nav date_str start_date end_date
      = Ok (NAV_Close_Price row)
    ∧ row_entry row = entry
    ∧ Fund_Name row = default fund (i !! "longName")
    ∧ Date row = date_str
    ∧ ratio_of (Fund_Close_Price row) (NAV_Close_Price row) (Discount row)
    ∧ scaled_to_millions (shares_outstanding f) (Shares_Outstanding_M row)
    ∧ scaled_to_millions (total_debt f) (Total_Debt_M row).
Proof.
  unfold report_row, item_of. fold fund nav.
  destruct (info yf fund) as [i|] eqn:Hi; simpl; [|discriminate].
  destruct (get_fundamentals_asof yf fund target_date true) as [f|] eqn:Hf;
    simpl; [|discriminate].
  destruct (get_close_price yf fund date_str start_date end_date) as [p|];
    simpl; [|discriminate].
  destruct (get_close_price yf nav date_str start_date end_date) as [q|];
    simpl; [|discriminate].
  intros [= <-]. exists i, f. simpl. split_and!; try reflexivity.
  - subst fund nav. by destruct entry.
  - apply ratio_of_intro.
  - apply scaled_to_millions_intro.
  - apply scaled_to_millions_intro.
Qed.

(** The body builds a row whenever the four fetches return, with the
    prices and figures read as cells by [loc]. *)
Lemma report_row_total i f p q :
  info yf fund = Ok i →
  get_fundamentals_asof yf fund target_date true = Ok f →
  get_close_price yf fund date_str start_date end_date = Ok p →
  get_close_price yf nav date_str start_date end_date = Ok q →
  ∃ row,
    report_row yf target_date date_str start_date end_date (item_of entry) = Ok row.
Proof.
  intros Hi Hf Hp Hq. unfold report_row, item_of. fold fund nav.
  rewrite Hi. simpl. rewrite Hf. simpl. rewrite Hp. simpl. rewrite Hq. simpl.
  eauto.
Qed.

End row.

(** Every row of a built report was built by the loop body for the entry
    at its position. *)
Lemma build_report_rows (yf : Provider) (xlsx : list TickerRow)
    (target_date : date) (rows : list ReportRow) :
  build_report yf xlsx target_date = Ok rows →
  Forall2 (λ entry row,
             report_row yf target_date (strftime target_date)
               (strftime (target_date - 2)) (strftime (target_date + 2))
               (item_of entry) = Ok row)
    (dropna xlsx) rows.
Proof.
  rewrite build_report_loop. intros (new & -> & Hnew)%for_each_Ok. simpl.
  by apply Forall2_fmap_l in Hnew.
Qed.

(** * The claims *)

(** ** Faults of the provider *)

(** C1 (the code departs from the claim).  A fault raised while the balance
    sheet is fetched is not caught: [get_fundamentals_asof] has no handler,
    so the exception leaves it, and the batch loop, which calls it outside
    any [try], ends without a report.  Here the provider answers the
    balance-sheet request of PDI with an HTTP error. *)
Theorem fundamentals_fault_aborts_batch :
  get_fundamentals_asof yf_outage "PDI" 19797 true
  = Raise (Exception "HTTPError: 429 Too Many Requests")
  ∧ build_report yf_outage demo_xlsx 19797
    = Raise (Exception "HTTPError: 429 Too Many Requests").
Proof. split; vm_compute; reflexivity. Qed.

(** C9.  Whatever [Exception] the provider raises inside
    [get_close_price] (network error, unknown ticker) is caught and the
    result is [None]; a malformed answer without a "Close" column ends the
    same way; and no [Exception] ever reaches the caller. *)
Theorem get_close_price_catches_faults
    (yf : Provider) (ticker date_ start end_ : string) :
  (∀ msg, history yf ticker start end_ = Raise (Exception msg) →
          get_close_price yf ticker date_ start end_ = Ok None)
  ∧ (∀ data, history yf ticker start end_ = Ok data →
             "Close" ∉ columns data →
             get_close_price yf ticker date_ start end_ = Ok None)
  ∧ (∀ msg, get_close_price yf ticker date_ start end_ ≠ Raise (Exception msg)).
Proof.
  split_and!.
  - intros msg. apply get_close_price_fault.
  - intros data. apply get_close_price_no_Close.
  - apply get_close_price_no_Exception.
Qed.

Lemma get_close_price_catches_faults_witness :
  history yf_demo "GOF" "2024-03-13" "2024-03-17"
  = Raise (Exception "No data found, symbol may be delisted")
  ∧ get_close_price yf_demo "GOF" "2024-03-15" "2024-03-13" "2024-03-17" = Ok None.
Proof.
  split; [reflexivity|].
  apply (proj1 (get_close_price_catches_faults yf_demo "GOF" "2024-03-15"
                  "2024-03-13" "2024-03-17"))
    with (msg := "No data found, symbol may be delisted").
  reflexivity.
Defined.

(** ** The closing price of the exact day *)

(** C2.  Queried over the window from two days before to two days after
    the target date, [get_close_price] returns the close of the bar whose
    calendar day is the target date when the returned series has one, and
    [None] when the series is empty or the day string of the target date is
    not among the day strings of the returned bars.  The series is a frame
    of daily bars: one bar per day, one "Close" column. *)
Theorem get_close_price_exact_day
    (yf : Provider) (ticker : string) (target_date : date)
    (data : DataFrame Timestamp string) :
  history yf ticker (strftime (target_date - 2)) (strftime (target_date + 2))
  = Ok data →
  NoDup (index_strftime (index data)) → NoDup (columns data) →
  (∀ i j t,
     index data !! i = Some t →
     strftime (Timestamp_date t) = strftime target_date →
     columns data !! j = Some "Close" →
     get_close_price yf ticker (strftime target_date)
       (strftime (target_date - 2)) (strftime (target_date + 2))
     = Ok (Some (iloc data i j)))
  ∧ (index data = [] →
     get_close_price yf ticker (strftime target_date)
       (strftime (target_date - 2)) (strftime (target_date + 2)) = Ok None)
  ∧ (strftime target_date ∉ index_strftime (index data) →
     get_close_price yf ticker (strftime target_date)
       (strftime (target_date - 2)) (strftime (target_date + 2)) = Ok None).
Proof.
  intros Hh Hdays Hcols. split_and!.
  - intros i j t Hi Ht Hj.
    by apply (get_close_price_that_day _ _ _ _ _ data Hh i j t).
  - intros Hnil. apply (get_close_price_empty _ _ _ _ _ data Hh).
    apply empty_true. by left.
  - apply (get_close_price_other_day _ _ _ _ _ data Hh).
Qed.

Lemma get_close_price_exact_day_witness :
  get_close_price yf_demo "PDI" "2024-03-15" "2024-03-13" "2024-03-17"
  = Ok (Some 9.5%float).
Proof.
  refine (proj1 (get_close_price_exact_day yf_demo "PDI" 19797 pdi_bars
                   eq_refl _ _) 1%nat 1%nat (midnight 19797)
            eq_refl eq_refl eq_refl).
  - apply (bool_decide_unpack _). vm_compute. exact I.
  - apply (bool_decide_unpack _). vm_compute. exact I.
Defined.

(** ** The as-of snapshot *)

(** C3, as stated, fails on a sheet that has a report date but no line
    items: the date 2023-12-31 is not after the as-of date 2024-03-15, yet
    [balance.empty] holds and every field, the report date included, comes
    back absent. *)
Lemma zero_row_sheet_has_no_report_date :
  fetch_balance yf_zero_rows "PDI" true = Ok zero_row_balance
  ∧ filter (λ d, d ≤ Timestamp_of_date 19797) (columns zero_row_balance)
    = [midnight 19722]
  ∧ get_fundamentals_asof yf_zero_rows "PDI" 19797 true = Ok no_fundamentals.
Proof. split_and!; vm_compute; reflexivity. Qed.

(** C3, amended.  [get_fundamentals_asof] never selects a report dated
    after the as-of date.  With [valid_dates] the report dates not after
    it: all fields are absent when [valid_dates] is empty or the sheet has
    no line items; otherwise the snapshot is taken at the maximum of
    [valid_dates], which is also the report date returned. *)
Theorem get_fundamentals_asof_no_look_ahead
    (yf : Provider) (ticker : string) (as_of_date : date) (quarterly : bool)
    (balance : DataFrame string Timestamp) :
  fetch_balance yf ticker quarterly = Ok balance →
  let valid_dates :=
    filter (λ d, d ≤ Timestamp_of_date as_of_date) (columns balance) in
  let snapshot := get_fundamentals_asof yf ticker as_of_date quarterly in
  (valid_dates = [] ∨ index balance = [] → snapshot = Ok no_fundamentals)
  ∧ (valid_dates ≠ [] → index balance ≠ [] →
     ∃ f latest,
       snapshot = Ok f ∧ report_date f = Some latest
       ∧ latest ∈ valid_dates
       ∧ (∀ d, d ∈ valid_dates → d ≤ latest)
       ∧ first_row balance latest
           ["Ordinary Shares Number"; "Share Issued"] None
         = Ok (shares_outstanding f)
       ∧ first_row balance latest
           ["Total Debt"; "Long Term Debt"; "Current Debt"] None
         = Ok (total_debt f)
       ∧ first_row balance latest
           ["Preferred Securities Outside Stock Equity"] (Some 0%float)
         = Ok (outside_equity f))
  ∧ (∀ f d, snapshot = Ok f → report_date f = Some d →
            d ∈ columns balance ∧ d ≤ Timestamp_of_date as_of_date).
Proof.
  intros Hb valid_dates snapshot. subst snapshot.
  assert (Hsnap : valid_dates ≠ [] → index balance ≠ [] →
    ∃ f latest,
       get_fundamentals_asof yf ticker as_of_date quarterly = Ok f ∧ report_date f = Some latest
       ∧ latest ∈ valid_dates
       ∧ (∀ d, d ∈ valid_dates → d ≤ latest)
       ∧ first_row balance latest
           ["Ordinary Shares Number"; "Share Issued"] None
         = Ok (shares_outstanding f)
       ∧ first_row balance latest
           ["Total Debt"; "Long Term Debt"; "Current Debt"] None
         = Ok (total_debt f)
       ∧ first_row balance latest
           ["Preferred Securities Outside Stock Equity"] (Some 0%float)
         = Ok (outside_equity f)).
  { intros Hv Hi. destruct valid_dates as [|d ds] eqn:Hvd; [done|].
    assert (He : empty balance = false).
    { apply empty_false. split; [done|]. intros Hc.
      subst valid_dates. rewrite Hc in Hvd. discriminate. }
    destruct (get_fundamentals_asof_snapshot yf ticker as_of_date quarterly
                balance Hb d ds He Hvd) as (sh & de & oe & Hs & Hd & Ho & Hf).
    eexists _, (max_date d ds). split; [exact Hf|]. simpl.
    split_and!; try done.
    - apply max_date_elem.
    - apply max_date_ge. }
  split_and!.
  - intros [Hv|Hi].
    + by apply (get_fundamentals_asof_no_valid_date _ _ _ _ balance Hb).
    + apply (get_fundamentals_asof_empty _ _ _ _ balance Hb).
      apply empty_true. by left.
  - exact Hsnap.
  - intros f d Hf Hd.
    destruct (decide (valid_dates = [])) as [Hv|Hv];
      [|destruct (decide (index balance = [])) as [Hi|Hi]].
    + rewrite (get_fundamentals_asof_no_valid_date _ _ _ _ balance Hb Hv) in Hf.
      injection Hf as <-. discriminate.
    + rewrite (get_fundamentals_asof_empty _ _ _ _ balance Hb) in Hf.
      * injection Hf as <-. discriminate.
      * apply empty_true. by left.
    + destruct (Hsnap Hv Hi) as (f' & latest & Hf' & Hr & Hin & _).
      rewrite Hf' in Hf. injection Hf as <-. rewrite Hr in Hd.
      injection Hd as <-. subst valid_dates.
      apply list_elem_of_filter in Hin as [? ?]. done.
Qed.

Lemma get_fundamentals_asof_no_look_ahead_witness :
  ∃ f,
    get_fundamentals_asof yf_demo "PDI" 19797 true = Ok f
    ∧ report_date f = Some (midnight 19722)
    ∧ shares_outstanding f = Some 12345678%float.
Proof.
  destruct (proj1 (proj2 (get_fundamentals_asof_no_look_ahead yf_demo "PDI"
                            19797 true pdi_balance eq_refl)))
    as (f & latest & Hf & Hr & _); [discriminate | discriminate |].
  exists f. vm_compute in Hf. injection Hf as <-. split_and!; reflexivity.
Defined.

(** ** Line items *)

(** C6, as stated, fails on the sheet with a report date but no line
    items: the outside-equity line is missing and a report not after the
    as-of date exists, yet the function stops at [balance.empty] and
    returns outside equity absent, not 0. *)
Lemma zero_row_sheet_outside_equity_absent :
  ("Preferred Securities Outside Stock Equity" ∉ index zero_row_balance)
  ∧ midnight 19722 ∈ columns zero_row_balance
  ∧ midnight 19722 ≤ Timestamp_of_date 19797
  ∧ (outside_equity <$> get_fundamentals_asof yf_zero_rows "PDI" 19797 true)
    = Ok None.
Proof.
  split_and!; [|by left|done|reflexivity].
  apply not_elem_of_nil.
Qed.

(** C6, amended.  For every balance sheet with at least one line item and
    at least one report date not after the as-of date, the snapshot has
    outside equity 0, not absent, when the line "Preferred Securities
    Outside Stock Equity" is missing; shares outstanding, and total debt,
    are absent when all their candidate lines are missing. *)
Theorem missing_line_items_default
    (yf : Provider) (ticker : string) (as_of_date : date) (quarterly : bool)
    (balance : DataFrame string Timestamp) (d : Timestamp) :
  fetch_balance yf ticker quarterly = Ok balance →
  index balance ≠ [] →
  d ∈ columns balance → d ≤ Timestamp_of_date as_of_date →
  ∃ f,
    get_fundamentals_asof yf ticker as_of_date quarterly = Ok f
    ∧ ("Preferred Securities Outside Stock Equity" ∉ index balance →
       outside_equity f = Some 0%float)
    ∧ ("Ordinary Shares Number" ∉ index balance →
       "Share Issued" ∉ index balance →
       shares_outstanding f = None)
    ∧ ("Total Debt" ∉ index balance →
       "Long Term Debt" ∉ index balance →
       "Current Debt" ∉ index balance →
       total_debt f = None).
Proof.
  intros Hb Hi Hd Hle.
  assert (Hvalid : d ∈ filter (λ x, x ≤ Timestamp_of_date as_of_date)
                       (columns balance)).
  { apply list_elem_of_filter. done. }
  destruct (filter _ (columns balance)) as [|d0 ds] eqn:Hv;
    [by apply not_elem_of_nil in Hvalid|].
  assert (He : empty balance = false).
  { apply empty_false. split; [done|]. intros Hc. rewrite Hc in Hd.
    by apply not_elem_of_nil in Hd. }
  destruct (get_fundamentals_asof_snapshot yf ticker as_of_date quarterly
              balance Hb d0 ds He Hv) as (sh & de & oe & Hs & Hde & Ho & Hf).
  eexists. split; [exact Hf|]. simpl. split_and!.
  - intros H1. rewrite first_row_skip in Ho by done. simpl in Ho. congruence.
  - intros H1 H2. rewrite !first_row_skip in Hs by done. simpl in Hs.
    congruence.
  - intros H1 H2 H3. rewrite !first_row_skip in Hde by done. simpl in Hde.
    congruence.
Qed.

Lemma missing_line_items_default_witness :
  ∃ f,
    get_fundamentals_asof yf_debt_free "PDI" 19797 true = Ok f
    ∧ outside_equity f = Some 0%float
    ∧ shares_outstanding f = Some 12345678%float.
Proof.
  destruct (missing_line_items_default yf_debt_free "PDI" 19797 true
              debt_free_balance (midnight 19722) eq_refl)
    as (f & Hf & Ho & _).
  - discriminate.
  - by left.
  - vm_compute. discriminate.
  - exists f. split; [exact Hf|]. split.
    + apply Ho. vm_compute. intros Hin.
      repeat (apply elem_of_cons in Hin as [Hin|Hin]; [discriminate Hin|]).
      by apply not_elem_of_nil in Hin.
    + vm_compute in Hf. by injection Hf as <-.
Defined.

(** C7.  When a snapshot is taken (some report is dated on or before the
    as-of date), each figure is read from the first candidate line the
    sheet carries: shares outstanding from "Ordinary Shares Number"
    whenever that line is present, whether or not "Share Issued" is, and
    from "Share Issued" only otherwise; total debt from "Total Debt", else
    "Long Term Debt", else "Current Debt". *)
Theorem line_item_priority
    (yf : Provider) (ticker : string) (as_of_date : date) (quarterly : bool)
    (balance : DataFrame string Timestamp) (d : Timestamp) :
  fetch_balance yf ticker quarterly = Ok balance →
  d ∈ columns balance → d ≤ Timestamp_of_date as_of_date →
  let snapshot := get_fundamentals_asof yf ticker as_of_date quarterly in
  ("Ordinary Shares Number" ∈ index balance →
   resolved_from snapshot balance shares_outstanding "Ordinary Shares Number")
  ∧ ("Ordinary Shares Number" ∉ index balance →
     "Share Issued" ∈ index balance →
     resolved_from snapshot balance shares_outstanding "Share Issued")
  ∧ ("Total Debt" ∈ index balance →
     resolved_from snapshot balance total_debt "Total Debt")
  ∧ ("Total Debt" ∉ index balance →
     "Long Term Debt" ∈ index balance →
     resolved_from snapshot balance total_debt "Long Term Debt")
  ∧ ("Total Debt" ∉ index balance →
     "Long Term Debt" ∉ index balance →
     "Current Debt" ∈ index balance →
     resolved_from snapshot balance total_debt "Current Debt").
Proof.
  intros Hb Hd Hle snapshot. subst snapshot.
  assert (Hvalid : d ∈ filter (λ x, x ≤ Timestamp_of_date as_of_date)
                       (columns balance)).
  { apply list_elem_of_filter. done. }
  destruct (filter _ (columns balance)) as [|d0 ds] eqn:Hv;
    [by apply not_elem_of_nil in Hvalid|].
  assert (Hcol : max_date d0 ds ∈ columns balance).
  { pose proof (max_date_elem d0 ds) as Hm. rewrite <- Hv in Hm.
    by apply list_elem_of_filter in Hm as [_ Hm]. }
  assert (Hsnap : index balance ≠ [] →
    ∃ f, get_fundamentals_asof yf ticker as_of_date quarterly = Ok f
         ∧ report_date f = Some (max_date d0 ds)
         ∧ first_row balance (max_date d0 ds)
             ["Ordinary Shares Number"; "Share Issued"] None
           = Ok (shares_outstanding f)
         ∧ first_row balance (max_date d0 ds)
             ["Total Debt"; "Long Term Debt"; "Current Debt"] None
           = Ok (total_debt f)).
  { intros Hi.
    assert (He : empty balance = false).
    { apply empty_false. split; [done|]. intros Hc. rewrite Hc in Hd.
      by apply not_elem_of_nil in Hd. }
    destruct (get_fundamentals_asof_snapshot yf ticker as_of_date quarterly
                balance Hb d0 ds He Hv) as (sh & de & oe & Hs & Hde & _ & Hf).
    eexists. split; [exact Hf|]. done. }
  assert (Hhas : ∀ row, row ∈ index balance → index balance ≠ []).
  { intros row Hrow Hnil. rewrite Hnil in Hrow.
    by apply not_elem_of_nil in Hrow. }
  unfold resolved_from. split_and!.
  - intros H1. destruct (Hsnap (Hhas _ H1)) as (f & Hf & Hr & Hs & _).
    destruct (first_row_here balance _ Hcol "Ordinary Shares Number"
                ["Share Issued"] None H1) as (v & Hv1 & Hv2).
    exists f, (max_date d0 ds), v. split_and!; [done..|congruence].
  - intros H1 H2. destruct (Hsnap (Hhas _ H2)) as (f & Hf & Hr & Hs & _).
    rewrite first_row_skip in Hs by done.
    destruct (first_row_here balance _ Hcol "Share Issued" [] None H2)
      as (v & Hv1 & Hv2).
    exists f, (max_date d0 ds), v. split_and!; [done..|congruence].
  - intros H1. destruct (Hsnap (Hhas _ H1)) as (f & Hf & Hr & _ & Hs).
    destruct (first_row_here balance _ Hcol "Total Debt"
                ["Long Term Debt"; "Current Debt"] None H1) as (v & Hv1 & Hv2).
    exists f, (max_date d0 ds), v. split_and!; [done..|congruence].
  - intros H1 H2. destruct (Hsnap (Hhas _ H2)) as (f & Hf & Hr & _ & Hs).
    rewrite first_row_skip in Hs by done.
    destruct (first_row_here balance _ Hcol "Long Term Debt"
                ["Current Debt"] None H2) as (v & Hv1 & Hv2).
    exists f, (max_date d0 ds), v. split_and!; [done..|congruence].
  - intros H1 H2 H3. destruct (Hsnap (Hhas _ H3)) as (f & Hf & Hr & _ & Hs).
    rewrite !first_row_skip in Hs by done.
    destruct (first_row_here balance _ Hcol "Current Debt" [] None H3)
      as (v & Hv1 & Hv2).
    exists f, (max_date d0 ds), v. split_and!; [done..|congruence].
Qed.

Lemma line_item_priority_witness :
  "Share Issued" ∈ index pdi_balance
  ∧ resolved_from (get_fundamentals_asof yf_demo "PDI" 19797 true) pdi_balance
      shares_outstanding "Ordinary Shares Number".
Proof.
  split.
  - vm_compute. right. left.
  - apply (proj1 (line_item_priority yf_demo "PDI" 19797 true pdi_balance
                    (midnight 19722) eq_refl
                    ltac:(vm_compute; right; left)
                    ltac:(vm_compute; discriminate))).
    vm_compute. left.
Defined.

(** ** Report rows *)

Lemma Forall2_Forall_right {A B} (R : A → B → Prop) (Q : B → Prop)
    (l : list A) (k : list B) :
  (∀ x y, R x y → Q y) → Forall2 R l k → Forall Q k.
Proof. intros HRQ HR. induction HR; constructor; eauto. Qed.

Lemma Forall2_fmap_eq {A B} (f : B → A) (l : list A) (k : list B) :
  Forall2 (λ x y, f y = x) l k → f <$> k = l.
Proof. intros HR. induction HR; simpl; [reflexivity | by f_equal]. Qed.

(** C4, as stated, fails when a price is there but is zero: the fund
    closed at 0.0, the NAV at 10.0, both prices are in the row, and the
    discount is absent. *)
Lemma zero_close_has_no_discount :
  match build_report yf_zero_close demo_xlsx 19797 with
  | Ok [row] =>
      Fund_Close_Price row = Some 0%float
      ∧ NAV_Close_Price row = Some 10%float
      ∧ Discount row = None
  | _ => False
  end.
Proof. vm_compute. split_and!; reflexivity. Qed.

Lemma ratio_of_functional (fund_price nav_price d1 d2 : option float) :
  ratio_of fund_price nav_price d1 → ratio_of fund_price nav_price d2 → d1 = d2.
Proof.
  unfold ratio_of. destruct fund_price as [f|], nav_price as [n|];
    try congruence.
  destruct (float_bool f && float_bool n); congruence.
Qed.

(** Runs that see the same price histories compute the same discounts,
    whatever else their providers answer. *)
Lemma discounts_same (yf1 yf2 : Provider) (target_date : date)
    (date_str start_date end_date : string)
    (entries : list FundEntry) (rows1 rows2 : list ReportRow) :
  (∀ t s e, history yf1 t s e = history yf2 t s e) →
  Forall2 (λ entry row,
             report_row yf1 target_date date_str start_date end_date
               (item_of entry) = Ok row) entries rows1 →
  Forall2 (λ entry row,
             report_row yf2 target_date date_str start_date end_date
               (item_of entry) = Ok row) entries rows2 →
  Discount <$> rows1 = Discount <$> rows2.
Proof.
  intros Hh H1. revert rows2.
  induction H1 as [|entry row1 entries rows1 Hrow1 _ IH]; intros rows2 H2.
  - by apply Forall2_nil_inv_l in H2 as ->.
  - apply Forall2_cons_inv_l in H2 as (row2 & rows2' & Hrow2 & H2 & ->).
    simpl. f_equal; [|by apply IH].
    apply report_row_Ok in Hrow1
      as (_ & _ & _ & _ & Hp1 & Hq1 & _ & _ & _ & Hr1 & _).
    apply report_row_Ok in Hrow2
      as (_ & _ & _ & _ & Hp2 & Hq2 & _ & _ & _ & Hr2 & _).
    rewrite (get_close_price_same yf1 yf2) in Hp1, Hq1 by apply Hh.
    assert (Fund_Close_Price row1 = Fund_Close_Price row2) as Hp by congruence.
    assert (NAV_Close_Price row1 = NAV_Close_Price row2) as Hq by congruence.
    rewrite Hp, Hq in Hr1. by apply (ratio_of_functional _ _ _ _ Hr1).
Qed.

(** C4, amended.  In every report row the two prices are what the two
    price lookups returned, and the discount is present if and only if both
    prices are present and non-zero, in which case it is fund price divided
    by NAV price (9.50 / 10.00 = 0.95); it is absent if either price is
    absent or zero.  The fundamentals do not enter: any other run that sees
    the same price histories, whatever its balance sheets, computes the
    same discounts. *)
Theorem discount_from_prices
    (yf : Provider) (xlsx : list TickerRow) (target_date : date)
    (rows : list ReportRow) :
  build_report yf xlsx target_date = Ok rows →
  Forall (λ row,
    get_close_price yf (Fund_Ticker row) (strftime target_date)
      (strftime (target_date - 2)) (strftime (target_date + 2))
    = Ok (Fund_Close_Price row)
    ∧ get_close_price yf (NAV_Ticker row) (strftime target_date)
        (strftime (target_date - 2)) (strftime (target_date + 2))
      = Ok (NAV_Close_Price row)
    ∧ ratio_of (Fund_Close_Price row) (NAV_Close_Price row) (Discount row)
    ∧ (is_Some (Discount row) ↔
       ∃ f n, Fund_Close_Price row = Some f ∧ NAV_Close_Price row = Some n
              ∧ float_bool f = true ∧ float_bool n = true)) rows
  ∧ (∀ yf' rows',
       (∀ t s e, history yf' t s e = history yf t s e) →
       build_report yf' xlsx target_date = Ok rows' →
       Discount <$> rows' = Discount <$> rows).
Proof.
  intros Hrows%build_report_rows. split.
  2:{ intros yf' rows' Hh Hrows'%build_report_rows.
      by eapply (discounts_same yf' yf). }
  refine (Forall2_Forall_right _ _ _ _ _ Hrows). clear. intros entry row Hrow.
  apply report_row_Ok in Hrow
    as (i & f & _ & _ & Hp & Hq & <- & _ & _ & Hratio & _).
  split_and!; [exact Hp | exact Hq | exact Hratio |].
  unfold ratio_of in Hratio.
  destruct (Fund_Close_Price row) as [p|], (NAV_Close_Price row) as [q|];
    try (rewrite Hratio; split;
         [intros [? [=]] | intros (? & ? & [=] & [=] & _)]).
  destruct (float_bool p) eqn:Hbp, (float_bool q) eqn:Hbq; simpl in Hratio;
    rewrite Hratio.
  - split; [intros _; by exists p, q | intros _; by eexists].
  - split; [intros [? [=]] | intros (? & ? & [= <-] & [= <-] & ? & ?); congruence].
  - split; [intros [? [=]] | intros (? & ? & [= <-] & [= <-] & ? & ?); congruence].
  - split; [intros [? [=]] | intros (? & ? & [= <-] & [= <-] & ? & ?); congruence].
Qed.

Lemma discount_from_prices_witness :
  build_report yf_demo demo_xlsx 19797 = Ok [pdi_row]
  ∧ Fund_Close_Price pdi_row = Some 9.5%float
  ∧ NAV_Close_Price pdi_row = Some 10%float
  ∧ Discount pdi_row = Some (9.5 / 10)%float.
Proof.
  assert (Hb : build_report yf_demo demo_xlsx 19797 = Ok [pdi_row])
    by (vm_compute; reflexivity).
  pose proof (proj1 (discount_from_prices yf_demo demo_xlsx 19797 [pdi_row] Hb))
    as Hrows.
  apply Forall_cons in Hrows as [(_ & _ & Hratio & _) _].
  split_and!; [exact Hb | reflexivity | reflexivity | exact Hratio].
Defined.




(** ** One row per entry *)

(** C8.  Sheet rows missing the fund ticker or the NAV ticker are dropped
    during load and the others are kept in their order; a report that is
    built holds exactly one row per kept entry, in the same order, each row
    carrying its entry's tickers and categories. *)
Theorem build_report_one_row_per_entry
    (yf : Provider) (xlsx : list TickerRow) (target_date : date) :
  entry_row <$> dropna xlsx = filter complete xlsx
  ∧ (∀ rows,
       build_report yf xlsx target_date = Ok rows →
       row_entry <$> rows = dropna xlsx
       ∧ length rows = length (filter complete xlsx)).
Proof.
  split; [apply dropna_filter|].
  intros rows Hb. apply build_report_rows in Hb.
  assert (Hrows : row_entry <$> rows = dropna xlsx).
  { apply Forall2_fmap_eq.
    eapply Forall2_impl; [exact Hb|]. intros entry row Hrow. simpl in Hrow.
    by apply report_row_Ok in Hrow as (_ & _ & _ & _ & _ & _ & Hentry & _). }
  split; [exact Hrows|].
  rewrite <- dropna_filter, <- Hrows, !length_fmap. reflexivity.
Qed.

Lemma build_report_one_row_per_entry_witness :
  build_report yf_demo demo_xlsx 19797 = Ok [pdi_row]
  ∧ row_entry <$> [pdi_row] = dropna demo_xlsx
  ∧ length [pdi_row] = length (filter complete demo_xlsx).
Proof.
  assert (Hb : build_report yf_demo demo_xlsx 19797 = Ok [pdi_row])
    by (vm_compute; reflexivity).
  split; [exact Hb|].
  exact (proj2 (build_report_one_row_per_entry yf_demo demo_xlsx 19797)
           [pdi_row] Hb).
Defined.

(** The table with one complete row and one row without NAV ticker gives a
    report of exactly one row, the one of the complete entry. *)
Example one_valid_one_missing_nav :
  length demo_xlsx = 2%nat
  ∧ build_report yf_demo demo_xlsx 19797 = Ok [pdi_row].
Proof. split; vm_compute; reflexivity. Qed.

(** ** Outside equity *)

Section outside_equity.
Variable row : string.
Variables b1 b2 : DataFrame string Timestamp.
Hypothesis same_index : index b1 = index b2.
Hypothesis same_columns : columns b1 = columns b2.
Hypothesis same_loc : ∀ r c, r ≠ row → loc b1 r c = loc b2 r c.

Lemma same_empty : empty b1 = empty b2.
Proof. unfold empty. by rewrite same_index, same_columns. Qed.

(** A fallback loop that does not try [row] reads the same from both. *)
Lemma first_row_same (latest : Timestamp) (rows : list string)
    (init : option float) :
  row ∉ rows →
  first_row b1 latest rows init = first_row b2 latest rows init.
Proof.
  induction rows as [|r rest IH]; intros Hrows; simpl; [reflexivity|].
  apply not_elem_of_cons in Hrows as [Hr Hrest].
  rewrite same_index, (same_loc r latest) by done.
  case_bool_decide; [reflexivity | by apply IH].
Qed.
End outside_equity.

(** Snapshots from two sheets that differ at most in the outside-equity
    line agree on everything but outside equity. *)
Lemma get_fundamentals_asof_same_but_outside_equity
    (yf1 yf2 : Provider) (ticker : string) (as_of_date : date) (quarterly : bool) :
  same_but_row "Preferred Securities Outside Stock Equity"
    (fetch_balance yf1 ticker quarterly) (fetch_balance yf2 ticker quarterly) →
  match get_fundamentals_asof yf1 ticker as_of_date quarterly,
        get_fundamentals_asof yf2 ticker as_of_date quarterly with
  | Ok f1, Ok f2 =>
      shares_outstanding f1 = shares_outstanding f2
      ∧ total_debt f1 = total_debt f2
      ∧ report_date f1 = report_date f2
  | Raise e1, Raise e2 => e1 = e2
  | _, _ => False
  end.
Proof.
  intros Hsame.
  destruct (fetch_balance yf1 ticker quarterly) as [b1|e1] eqn:H1;
    destruct (fetch_balance yf2 ticker quarterly) as [b2|e2] eqn:H2;
    inversion Hsame as [e|? ? Hi Hc Hloc]; subst.
  2:{ by rewrite !(get_fundamentals_asof_fault _ _ _ _ e2). }
  pose proof (same_empty b1 b2 Hi Hc) as He.
  destruct (empty b1) eqn:He1.
  { rewrite (get_fundamentals_asof_empty _ _ _ _ b1 H1 He1).
    rewrite (get_fundamentals_asof_empty _ _ _ _ b2 H2); done. }
  destruct (filter (λ d, d ≤ Timestamp_of_date as_of_date) (columns b1))
    as [|d ds] eqn:Hv.
  { rewrite (get_fundamentals_asof_no_valid_date _ _ _ _ b1 H1 Hv).
    rewrite (get_fundamentals_asof_no_valid_date _ _ _ _ b2 H2);
      [done | by rewrite <- Hc]. }
  destruct (get_fundamentals_asof_snapshot _ _ _ _ b1 H1 d ds He1 Hv)
    as (s1 & d1 & o1 & Hs1 & Hd1 & _ & ->).
  rewrite Hc in Hv. symmetry in He.
  destruct (get_fundamentals_asof_snapshot _ _ _ _ b2 H2 d ds He Hv)
    as (s2 & d2 & o2 & Hs2 & Hd2 & _ & ->).
  simpl. split_and!; [| |reflexivity].
  - rewrite (first_row_same _ b1 b2 Hi Hloc) in Hs1; [congruence|].
    intros Hin. repeat (apply elem_of_cons in Hin as [[=]|Hin]).
    by apply not_elem_of_nil in Hin.
  - rewrite (first_row_same _ b1 b2 Hi Hloc) in Hd1; [congruence|].
    intros Hin. repeat (apply elem_of_cons in Hin as [[=]|Hin]).
    by apply not_elem_of_nil in Hin.
Qed.

(** C10.  The report does not depend on outside equity: two runs whose
    providers answer alike except for the cells of the line "Preferred
    Securities Outside Stock Equity" build the same rows (or end on the
    same exception).  The value is read from the snapshot and then never
    written into a row. *)
Theorem report_independent_of_outside_equity
    (yf1 yf2 : Provider) (xlsx : list TickerRow) (target_date : date) :
  same_but_line_item "Preferred Securities Outside Stock Equity" yf1 yf2 →
  build_report yf1 xlsx target_date = build_report yf2 xlsx target_date.
Proof.
  intros [Hinfo Hhist Hq _]. rewrite !build_report_loop.
  apply for_each_ext. intros [fund [nav [ty [sub [bc rg]]]]] _.
  unfold report_row. rewrite Hinfo.
  destruct (info yf2 fund) as [i|e]; simpl; [|reflexivity].
  pose proof (get_fundamentals_asof_same_but_outside_equity yf1 yf2 fund
                target_date true (Hq fund)) as Hf.
  destruct (get_fundamentals_asof yf1 fund target_date true) as [f1|e1],
           (get_fundamentals_asof yf2 fund target_date true) as [f2|e2];
    simpl; try contradiction; [|by subst].
  destruct Hf as (-> & -> & _).
  rewrite (get_close_price_same yf1 yf2 fund) by apply Hhist.
  rewrite (get_close_price_same yf1 yf2 nav) by apply Hhist.
  reflexivity.
Qed.

Lemma pdi_balance_same_but_outside_equity :
  same_but_row "Preferred Securities Outside Stock Equity"
    (Ok pdi_balance) (Ok pdi_balance').
Proof.
  apply same_cells; [reflexivity | reflexivity |].
  intros r c Hr. unfold loc.
  change (index pdi_balance') with (index pdi_balance).
  change (columns pdi_balance') with (columns pdi_balance).
  destruct (list_find (r =.) (index pdi_balance)) as [[i x]|] eqn:Hi;
    [|reflexivity].
  destruct (list_find (c =.) (columns pdi_balance)) as [[j y]|]; [|reflexivity].
  apply list_find_Some in Hi as (Hi & <- & _).
  do 5 (destruct i as [|i]; [try reflexivity|]).
  - by injection Hi as <-.
  - discriminate Hi.
Defined.

Lemma report_independent_of_outside_equity_witness :
  outside_equity <$> get_fundamentals_asof yf_demo "PDI" 19797 true
  ≠ outside_equity <$> get_fundamentals_asof yf_demo' "PDI" 19797 true
  ∧ build_report yf_demo demo_xlsx 19797 = build_report yf_demo' demo_xlsx 19797.
Proof.
  split; [vm_compute; discriminate|].
  apply report_independent_of_outside_equity.
  split; [reflexivity | reflexivity | | intros t; apply same_cells; reflexivity].
  intros t. simpl. destruct (String.eqb t "PDI").
  - apply pdi_balance_same_but_outside_equity.
  - apply same_cells; reflexivity.
Defined.

(** * Further properties of the script *)

(** ** What [get_close_price] returns *)

(** A price that is returned is a cell of the "Close" column of the
    returned series, in a bar whose day string is the requested date: the
    price of a neighbouring day is never handed out. *)
Theorem get_close_price_is_a_close_of_that_day
    (yf : Provider) (ticker date_ start end_ : string) (p : float) :
  get_close_price yf ticker date_ start end_ = Ok (Some p) →
  ∃ data i j t,
    history yf ticker start end_ = Ok data
    ∧ index data !! i = Some t
    ∧ strftime (Timestamp_date t) = date_
    ∧ columns data !! j = Some "Close"
    ∧ p = iloc data i j.
Proof.
  unfold get_close_price.
  destruct (history yf ticker start end_) as [data|[msg|msg]]; simpl;
    [|discriminate..].
  destruct (empty data || _) eqn:Hguard; simpl; [discriminate|].
  unfold loc. simpl.
  destruct (list_find _ (index_strftime (index data))) as [[i x]|] eqn:Hi;
    [|discriminate].
  destruct (list_find _ (columns data)) as [[j y]|] eqn:Hj; [|discriminate].
  simpl. intros [= <-].
  apply list_find_Some in Hi as (Hi & <- & _).
  apply list_find_Some in Hj as (Hj & <- & _).
  unfold index_strftime in Hi.
  apply list_lookup_fmap_Some in Hi as (t & Ht & Hit).
  exists data, i, j, t. split_and!; try done.
Qed.

Lemma get_close_price_is_a_close_of_that_day_witness :
  ∃ data i j t,
    history yf_demo "PDI" "2024-03-13" "2024-03-17" = Ok data
    ∧ index data !! i = Some t
    ∧ strftime (Timestamp_date t) = "2024-03-15"
    ∧ columns data !! j = Some "Close"
    ∧ 9.5%float = iloc data i j.
Proof.
  apply (get_close_price_is_a_close_of_that_day yf_demo "PDI" "2024-03-15"
           "2024-03-13" "2024-03-17" 9.5%float).
  vm_compute. reflexivity.
Defined.

(** The function raises exactly when the price request raises something
    [except Exception] does not catch, and then lets that very exception
    through. *)
Theorem get_close_price_raises_only_uncaught
    (yf : Provider) (ticker date_ start end_ : string) (e : exn) :
  get_close_price yf ticker date_ start end_ = Raise e ↔
  ∃ msg, e = BaseException msg ∧ history yf ticker start end_ = Raise e.
Proof.
  split.
  - intros Hraise. pose proof (get_close_price_Raise _ _ _ _ _ _ Hraise) as Hh.
    destruct e as [msg|msg]; [|by exists msg].
    by apply get_close_price_no_Exception in Hraise.
  - intros (msg & -> & Hh). unfold get_close_price. by rewrite Hh.
Qed.

Lemma get_close_price_raises_only_uncaught_witness :
  get_close_price yf_interrupted "PDI" "2024-03-15" "2024-03-13" "2024-03-17"
  = Raise (BaseException "KeyboardInterrupt").
Proof.
  apply (proj2 (get_close_price_raises_only_uncaught yf_interrupted "PDI"
                  "2024-03-15" "2024-03-13" "2024-03-17" _)).
  exists "KeyboardInterrupt". split; reflexivity.
Defined.

(** ** What [get_fundamentals_asof] returns *)

(** The only exception of the function is the one of the balance-sheet
    request: the line-item lookups never raise a [KeyError], because a
    line is read only after its label was found in the index, and in the
    column of a report date taken from the sheet. *)
Theorem get_fundamentals_asof_raises_with_the_fetch
    (yf : Provider) (ticker : string) (as_of_date : date) (quarterly : bool)
    (e : exn) :
  get_fundamentals_asof yf ticker as_of_date quarterly = Raise e ↔
  fetch_balance yf ticker quarterly = Raise e.
Proof.
  split.
  - apply get_fundamentals_asof_Raise.
  - apply get_fundamentals_asof_fault.
Qed.

(** A fallback loop that starts from a number ends on a number. *)
Lemma first_row_keeps_a_number (balance : DataFrame string Timestamp)
    (latest : Timestamp) (rows : list string) (x : float) (y : option float) :
  first_row balance latest rows (Some x) = Ok y → is_Some y.
Proof.
  induction rows as [|row rest IH]; simpl.
  - intros [= <-]. eauto.
  - case_bool_decide; [|exact IH].
    destruct (loc balance row latest) as [v|]; simpl; [|discriminate].
    intros [= <-]. eauto.
Qed.

(** What a dated snapshot tells about the sheet it was taken from. *)
Lemma get_fundamentals_asof_dated
    (yf : Provider) (ticker : string) (as_of_date : date) (quarterly : bool)
    (balance : DataFrame string Timestamp) (f : Fundamentals) (d : Timestamp) :
  fetch_balance yf ticker quarterly = Ok balance →
  get_fundamentals_asof yf ticker as_of_date quarterly = Ok f →
  report_date f = Some d →
  empty balance = false
  ∧ d ∈ filter (λ x, x ≤ Timestamp_of_date as_of_date) (columns balance)
  ∧ (∀ x, x ∈ filter (λ x, x ≤ Timestamp_of_date as_of_date) (columns balance) →
          x ≤ d)
  ∧ is_Some (outside_equity f).
Proof.
  intros Hb Hf Hd.
  destruct (empty balance) eqn:He.
  { rewrite (get_fundamentals_asof_empty _ _ _ _ balance Hb He) in Hf.
    injection Hf as <-. discriminate. }
  destruct (filter _ (columns balance)) as [|d0 ds] eqn:Hv.
  { rewrite (get_fundamentals_asof_no_valid_date _ _ _ _ balance Hb Hv) in Hf.
    injection Hf as <-. discriminate. }
  destruct (get_fundamentals_asof_snapshot _ _ _ _ balance Hb d0 ds He Hv)
    as (sh & de & oe & _ & _ & Ho & Hf').
  rewrite Hf' in Hf. injection Hf as <-. simpl in Hd. injection Hd as <-.
  split_and!; [done | apply max_date_elem | apply max_date_ge |].
  simpl. by apply first_row_keeps_a_number in Ho.
Qed.

(** A sheet with line items and a report not after the as-of date gives a
    snapshot dated at or after that report. *)
Lemma get_fundamentals_asof_of_valid
    (yf : Provider) (ticker : string) (as_of_date : date) (quarterly : bool)
    (balance : DataFrame string Timestamp) (x : Timestamp) :
  fetch_balance yf ticker quarterly = Ok balance →
  empty balance = false →
  x ∈ filter (λ x, x ≤ Timestamp_of_date as_of_date) (columns balance) →
  ∃ f d,
    get_fundamentals_asof yf ticker as_of_date quarterly = Ok f
    ∧ report_date f = Some d ∧ x ≤ d
    ∧ d ∈ filter (λ x, x ≤ Timestamp_of_date as_of_date) (columns balance).
Proof.
  intros Hb He Hx.
  destruct (filter _ (columns balance)) as [|d0 ds] eqn:Hv;
    [by apply not_elem_of_nil in Hx|].
  destruct (get_fundamentals_asof_snapshot _ _ _ _ balance Hb d0 ds He Hv)
    as (sh & de & oe & _ & _ & _ & Hf).
  eexists _, (max_date d0 ds). split; [exact Hf|]. simpl.
  split_and!; [done | by apply max_date_ge | apply max_date_elem].
Qed.

(** The returned dictionary has one of two shapes: all four fields absent,
    or a report date together with an outside-equity number (the sheet's
    cell or the default 0).  Outside equity is absent exactly when no report
    was selected. *)
Theorem fundamentals_dated_or_empty
    (yf : Provider) (ticker : string) (as_of_date : date) (quarterly : bool)
    (f : Fundamentals) :
  get_fundamentals_asof yf ticker as_of_date quarterly = Ok f →
  (report_date f = None → f = no_fundamentals)
  ∧ (is_Some (report_date f) ↔ is_Some (outside_equity f)).
Proof.
  intros Hf.
  destruct (fetch_balance yf ticker quarterly) as [balance|e] eqn:Hb.
  2:{ by rewrite (get_fundamentals_asof_fault _ _ _ _ e Hb) in Hf. }
  destruct (report_date f) as [d|] eqn:Hd.
  - destruct (get_fundamentals_asof_dated _ _ _ _ balance f d Hb Hf Hd)
      as (_ & _ & _ & Ho).
    split; [discriminate|]. split; eauto.
  - assert (Hnone : f = no_fundamentals).
    { destruct (empty balance) eqn:He.
      { rewrite (get_fundamentals_asof_empty _ _ _ _ balance Hb He) in Hf.
        by injection Hf as <-. }
      destruct (filter (λ x, x ≤ Timestamp_of_date as_of_date)
                  (columns balance)) as [|d0 ds] eqn:Hv.
      { rewrite (get_fundamentals_asof_no_valid_date _ _ _ _ balance Hb Hv)
          in Hf.
        by injection Hf as <-. }
      destruct (get_fundamentals_asof_snapshot _ _ _ _ balance Hb d0 ds He Hv)
        as (sh & de & oe & _ & _ & _ & Hf').
      rewrite Hf' in Hf. injection Hf as <-. discriminate Hd. }
    split; [done|]. rewrite Hnone. simpl.
    split; intros [? [=]].
Qed.

Lemma fundamentals_dated_or_empty_witness :
  get_fundamentals_asof yf_demo "PDI" 19797 true = Ok pdi_snapshot
  ∧ (is_Some (report_date pdi_snapshot) ↔ is_Some (outside_equity pdi_snapshot)).
Proof.
  assert (Hf : get_fundamentals_asof yf_demo "PDI" 19797 true = Ok pdi_snapshot)
    by (vm_compute; reflexivity).
  split; [exact Hf|].
  exact (proj2 (fundamentals_dated_or_empty yf_demo "PDI" 19797 true
                  pdi_snapshot Hf)).
Defined.

Lemma Timestamp_of_date_mono (d1 d2 : date) :
  d1 ≤ d2 → Timestamp_of_date d1 ≤ Timestamp_of_date d2.
Proof.
  intros Hle. unfold Timestamp_of_date, ns_per_day.
  apply Z.mul_le_mono_nonneg_r; [done | exact Hle].
Qed.

(** A later as-of date never selects an earlier report: once a report is
    selected for an as-of date, every later as-of date selects a report
    dated at or after it. *)
Theorem report_date_monotone
    (yf : Provider) (ticker : string) (quarterly : bool)
    (as_of_1 as_of_2 : date) (f1 : Fundamentals) (d1 : Timestamp) :
  as_of_1 ≤ as_of_2 →
  get_fundamentals_asof yf ticker as_of_1 quarterly = Ok f1 →
  report_date f1 = Some d1 →
  ∃ f2 d2,
    get_fundamentals_asof yf ticker as_of_2 quarterly = Ok f2
    ∧ report_date f2 = Some d2 ∧ d1 ≤ d2
    ∧ d2 ≤ Timestamp_of_date as_of_2.
Proof.
  intros Hle Hf1 Hd1.
  destruct (fetch_balance yf ticker quarterly) as [balance|e] eqn:Hb.
  2:{ by rewrite (get_fundamentals_asof_fault _ _ _ _ e Hb) in Hf1. }
  destruct (get_fundamentals_asof_dated _ _ _ _ balance f1 d1 Hb Hf1 Hd1)
    as (He & Hin & _).
  apply list_elem_of_filter in Hin as [Hd1le Hd1in].
  destruct (get_fundamentals_asof_of_valid yf ticker as_of_2 quarterly
              balance d1 Hb He) as (f2 & d2 & Hf2 & Hd2 & Hle12 & Hin2).
  { apply list_elem_of_filter. split; [|exact Hd1in].
    pose proof (Timestamp_of_date_mono _ _ Hle). lia. }
  exists f2, d2. split_and!; try done.
  by apply list_elem_of_filter in Hin2 as [? _].
Qed.

Lemma report_date_monotone_witness :
  ∃ f2 d2,
    get_fundamentals_asof yf_demo "PDI" 19900 true = Ok f2
    ∧ report_date f2 = Some d2 ∧ midnight 19722 ≤ d2
    ∧ d2 ≤ Timestamp_of_date 19900.
Proof.
  refine (report_date_monotone yf_demo "PDI" true 19797 19900
            pdi_snapshot (midnight 19722) _ _ eq_refl).
  - vm_compute. discriminate.
  - vm_compute. reflexivity.
Defined.

(** Two sheets with the same line items that agree on every report not
    after the as-of date read alike in every fallback loop. *)
Lemma first_row_ext (b1 b2 : DataFrame string Timestamp) (latest : Timestamp)
    (rows : list string) (init : option float) :
  index b1 = index b2 →
  (∀ r, loc b1 r latest = loc b2 r latest) →
  first_row b1 latest rows init = first_row b2 latest rows init.
Proof.
  intros Hi Hloc. induction rows as [|row rest IH]; simpl; [reflexivity|].
  rewrite Hi, Hloc. by rewrite IH.
Qed.

(** Reports dated after the as-of date cannot influence the snapshot:
    two balance sheets with the same line items and the same reports up to
    the as-of date give the same snapshot, whatever later reports they
    hold. *)
Theorem later_reports_do_not_matter
    (yf1 yf2 : Provider) (ticker1 ticker2 : string) (as_of_date : date)
    (quarterly1 quarterly2 : bool) (b1 b2 : DataFrame string Timestamp) :
  fetch_balance yf1 ticker1 quarterly1 = Ok b1 →
  fetch_balance yf2 ticker2 quarterly2 = Ok b2 →
  index b1 = index b2 →
  filter (λ d, d ≤ Timestamp_of_date as_of_date) (columns b1)
  = filter (λ d, d ≤ Timestamp_of_date as_of_date) (columns b2) →
  (∀ r c, c ≤ Timestamp_of_date as_of_date → loc b1 r c = loc b2 r c) →
  get_fundamentals_asof yf1 ticker1 as_of_date quarterly1
  = get_fundamentals_asof yf2 ticker2 as_of_date quarterly2.
Proof.
  intros H1 H2 Hi Hv Hloc.
  destruct (filter (λ d, d ≤ Timestamp_of_date as_of_date) (columns b1))
    as [|d ds] eqn:Hv1.
  { rewrite (get_fundamentals_asof_no_valid_date _ _ _ _ b1 H1 Hv1).
    by rewrite (get_fundamentals_asof_no_valid_date _ _ _ _ b2 H2). }
  symmetry in Hv.
  assert (Hc1 : columns b1 ≠ []) by (intros Hc; rewrite Hc in Hv1; discriminate).
  assert (Hc2 : columns b2 ≠ []) by (intros Hc; rewrite Hc in Hv; discriminate).
  destruct (decide (index b1 = [])) as [Hnil|Hrows].
  { rewrite (get_fundamentals_asof_empty _ _ _ _ b1 H1)
      by (apply empty_true; by left).
    rewrite (get_fundamentals_asof_empty _ _ _ _ b2 H2)
      by (apply empty_true; left; congruence).
    reflexivity. }
  assert (He1 : empty b1 = false) by by apply empty_false.
  assert (He2 : empty b2 = false) by (apply empty_false; split; congruence).
  destruct (get_fundamentals_asof_snapshot _ _ _ _ b1 H1 d ds He1 Hv1)
    as (s1 & d1 & o1 & Hs1 & Hd1 & Ho1 & ->).
  destruct (get_fundamentals_asof_snapshot _ _ _ _ b2 H2 d ds He2 Hv)
    as (s2 & d2 & o2 & Hs2 & Hd2 & Ho2 & ->).
  assert (Hlatest : ∀ r, loc b1 r (max_date d ds) = loc b2 r (max_date d ds)).
  { intros r. apply Hloc. pose proof (max_date_elem d ds) as Hm.
    rewrite <- Hv1 in Hm. by apply list_elem_of_filter in Hm as [? _]. }
  rewrite (first_row_ext b1 b2 _ _ _ Hi Hlatest) in Hs1.
  rewrite (first_row_ext b1 b2 _ _ _ Hi Hlatest) in Hd1.
  rewrite (first_row_ext b1 b2 _ _ _ Hi Hlatest) in Ho1.
  do 2 f_equal; congruence.
Qed.

Lemma pdi_balance_restated_agrees (r : string) (c : Timestamp) :
  c ≤ Timestamp_of_date 19797 →
  loc pdi_balance r c = loc pdi_balance_restated r c.
Proof.
  intros Hc. unfold loc.
  change (index pdi_balance_restated) with (index pdi_balance).
  change (columns pdi_balance_restated) with (columns pdi_balance).
  destruct (list_find (r =.) (index pdi_balance)) as [[i x]|] eqn:Hi;
    [|reflexivity].
  destruct (list_find (c =.) (columns pdi_balance)) as [[j y]|] eqn:Hj;
    [|reflexivity].
  apply list_find_Some in Hj as (Hj & <- & _).
  apply list_find_Some in Hi as (Hi & _ & _).
  destruct j as [|j].
  - injection Hj as <-. vm_compute in Hc. by destruct Hc.
  - do 5 (destruct i as [|i];
          [do 2 (destruct j as [|j]; [reflexivity|]); discriminate Hj|]).
    discriminate Hi.
Defined.

Lemma later_reports_do_not_matter_witness :
  loc pdi_balance "Total Debt" (midnight 19813)
  ≠ loc pdi_balance_restated "Total Debt" (midnight 19813)
  ∧ get_fundamentals_asof yf_demo "PDI" 19797 true
    = get_fundamentals_asof yf_restated "PDI" 19797 true.
Proof.
  split; [vm_compute; discriminate|].
  apply (later_reports_do_not_matter yf_demo yf_restated "PDI" "PDI" 19797
           true true pdi_balance pdi_balance_restated);
    [reflexivity | reflexivity | reflexivity | reflexivity |].
  apply pdi_balance_restated_agrees.
Defined.

(** ** Missing figures *)

(** A figure that is NaN (a line the sheet lists without a number for the
    selected report) is not treated as absent: NaN is a true value, so the
    row carries NaN in millions. *)
Theorem nan_figures_stay_nan
    (yf : Provider) (xlsx : list TickerRow) (target_date : date)
    (rows : list ReportRow) :
  build_report yf xlsx target_date = Ok rows →
  Forall (λ row, ∃ f,
    get_fundamentals_asof yf (Fund_Ticker row) target_date true = Ok f
    ∧ (shares_outstanding f = Some nan →
       Shares_Outstanding_M row = Some nan)
    ∧ (total_debt f = Some nan → Total_Debt_M row = Some nan)) rows.
Proof.
  intros Hrows%build_report_rows.
  refine (Forall2_Forall_right _ _ _ _ _ Hrows). clear. intros entry row Hrow.
  apply report_row_Ok in Hrow
    as (i & f & _ & Hf & _ & _ & <- & _ & _ & _ & Hs & Hd).
  exists f. split_and!; [exact Hf | |].
  - intros Hnan. rewrite Hnan in Hs. exact Hs.
  - intros Hnan. rewrite Hnan in Hd. exact Hd.
Qed.

Lemma nan_figures_stay_nan_witness :
  match get_fundamentals_asof yf_nan "PDI" 19797 true,
        build_report yf_nan demo_xlsx 19797 with
  | Ok f, Ok [row] =>
      shares_outstanding f = Some nan ∧ Shares_Outstanding_M row = Some nan
  | _, _ => False
  end.
Proof.
  destruct (build_report yf_nan demo_xlsx 19797) as [rows|e] eqn:Hb;
    [|vm_compute in Hb; discriminate Hb].
  pose proof (nan_figures_stay_nan yf_nan demo_xlsx 19797 rows Hb) as Hrows.
  vm_compute in Hb. injection Hb as <-.
  apply Forall_cons in Hrows as [(f & Hf & Hs & _) _].
  vm_compute in Hf. injection Hf as <-.
  vm_compute. split; reflexivity.
Defined.

(** ** The batch as a whole *)

(** One failing fund is enough to lose the report: when the [info] request
    or the balance-sheet request raises for any entry of the table,
    wherever it stands, the run ends on an exception and no rows, not even
    those built before, are handed on. *)
Theorem one_failing_fund_loses_the_report
    (yf : Provider) (xlsx : list TickerRow) (target_date : date)
    (entry : FundEntry) (e : exn) :
  entry ∈ dropna xlsx →
  info yf (fund_ticker entry) = Raise e
  ∨ quarterly_balance_sheet yf (fund_ticker entry) = Raise e →
  ∃ e', build_report yf xlsx target_date = Raise e'.
Proof.
  intros Hin Hfault.
  destruct (build_report yf xlsx target_date) as [rows|e'] eqn:Hb; [|eauto].
  exfalso. apply build_report_rows in Hb.
  apply list_elem_of_lookup in Hin as [k Hk].
  destruct (Forall2_lookup_l _ _ _ _ _ Hb Hk) as (row & _ & Hrow).
  apply report_row_Ok in Hrow as (i & f & Hi & Hf & _).
  destruct Hfault as [Hraise|Hraise].
  - rewrite Hraise in Hi. discriminate.
  - rewrite (get_fundamentals_asof_fault yf (fund_ticker entry) target_date
               true e Hraise) in Hf.
    discriminate.
Qed.

Lemma one_failing_fund_loses_the_report_witness :
  ∃ e', build_report yf_outage demo_xlsx 19797 = Raise e'.
Proof.
  apply (one_failing_fund_loses_the_report yf_outage demo_xlsx 19797
           {| fund_ticker := "PDI"; nav_ticker := "XPDIX";
              fund_type := Some "Closed-End"; subcategory := Some "Multisector";
              broad_category := Some "Taxable Bond"; region := Some "Global" |}
           (Exception "HTTPError: 429 Too Many Requests")).
  - vm_compute. left.
  - right. reflexivity.
Defined.

(** Rows are built independently of each other: the report of two tables
    put one after the other is the report of the first followed by the
    report of the second, and it exists exactly when both exist. *)
Theorem build_report_app
    (yf : Provider) (xlsx1 xlsx2 : list TickerRow) (target_date : date)
    (rows : list ReportRow) :
  build_report yf (xlsx1 ++ xlsx2) target_date = Ok rows ↔
  ∃ rows1 rows2,
    build_report yf xlsx1 target_date = Ok rows1
    ∧ build_report yf xlsx2 target_date = Ok rows2
    ∧ rows = rows1 ++ rows2.
Proof.
  rewrite !build_report_loop. unfold dropna. rewrite omap_app, fmap_app.
  rewrite for_each_Ok. split.
  - intros (new & -> & Hnew).
    apply Forall2_app_inv_l in Hnew as (rows1 & rows2 & H1 & H2 & ->).
    exists rows1, rows2. split_and!; [| |reflexivity].
    + apply for_each_Ok. by exists rows1.
    + apply for_each_Ok. by exists rows2.
  - intros (rows1 & rows2 & H1 & H2 & ->).
    apply for_each_Ok in H1 as (new1 & -> & H1).
    apply for_each_Ok in H2 as (new2 & -> & H2).
    exists (new1 ++ new2). split; [reflexivity|]. by apply Forall2_app.
Qed.

Lemma dropna_filter_complete (xlsx : list TickerRow) :
  dropna (filter complete xlsx) = dropna xlsx.
Proof.
  unfold dropna. induction xlsx as [|r xlsx IH]; [reflexivity|].
  destruct r as [[fund|] [nav|] ty sub bc rg].
  - rewrite filter_cons_True by (split; eauto). simpl. f_equal. exact IH.
  - rewrite filter_cons_False by (intros [_ [? [=]]]). exact IH.
  - rewrite filter_cons_False by (intros [[? [=]] _]). exact IH.
  - rewrite filter_cons_False by (intros [[? [=]] _]). exact IH.
Qed.

(** Sheet rows without fund ticker or NAV ticker leave no trace: the run
    on a table equals, report or exception, the run on the table without
    them. *)
Theorem incomplete_rows_leave_no_trace
    (yf : Provider) (xlsx : list TickerRow) (target_date : date) :
  build_report yf xlsx target_date
  = build_report yf (filter complete xlsx) target_date.
Proof. rewrite !build_report_loop. by rewrite dropna_filter_complete. Qed.

(** The annual balance sheet is never requested by the batch: providers
    that agree on [info], on the price histories and on the quarterly
    balance sheets give the same run. *)
Theorem annual_balance_sheet_is_not_used
    (yf1 yf2 : Provider) (xlsx : list TickerRow) (target_date : date) :
  (∀ t, info yf1 t = info yf2 t) →
  (∀ t s e, history yf1 t s e = history yf2 t s e) →
  (∀ t, quarterly_balance_sheet yf1 t = quarterly_balance_sheet yf2 t) →
  build_report yf1 xlsx target_date = build_report yf2 xlsx target_date.
Proof.
  intros Hinfo Hhist Hq. rewrite !build_report_loop.
  apply for_each_ext. intros [fund [nav [ty [sub [bc rg]]]]] _.
  unfold report_row, get_fundamentals_asof, fetch_balance.
  rewrite Hinfo, Hq.
  rewrite (get_close_price_same yf1 yf2 fund) by apply Hhist.
  rewrite (get_close_price_same yf1 yf2 nav) by apply Hhist.
  reflexivity.
Qed.

Lemma annual_balance_sheet_is_not_used_witness :
  balance_sheet yf_demo "PDI" ≠ balance_sheet yf_annual "PDI"
  ∧ build_report yf_demo demo_xlsx 19797 = build_report yf_annual demo_xlsx 19797.
Proof.
  split; [vm_compute; discriminate|].
  apply annual_balance_sheet_is_not_used; reflexivity.
Defined.

(** Every row shows the fund under the long name the provider has for it
    and, when the provider's [info] has no "longName", under its ticker;
    and every row is stamped with the valuation date. *)
Theorem rows_are_named_and_dated
    (yf : Provider) (xlsx : list TickerRow) (target_date : date)
    (rows : list ReportRow) :
  build_report yf xlsx target_date = Ok rows →
  Forall (λ row, ∃ i,
    info yf (Fund_Ticker row) = Ok i
    ∧ (∀ name, i !! "longName" = Some name → Fund_Name row = name)
    ∧ (i !! "longName" = None → Fund_Name row = Fund_Ticker row)
    ∧ Date row = strftime target_date) rows.
Proof.
  intros Hrows%build_report_rows.
  refine (Forall2_Forall_right _ _ _ _ _ Hrows). clear. intros entry row Hrow.
  apply report_row_Ok in Hrow
    as (i & f & Hi & _ & _ & _ & <- & Hname & Hdate & _).
  exists i. simpl in *. split_and!; [exact Hi | | | exact Hdate].
  - intros name Hn. by rewrite Hname, Hn.
  - intros Hn. by rewrite Hname, Hn.
Qed.

Lemma rows_are_named_and_dated_witness :
  build_report yf_demo gof_xlsx 19797 = Ok [gof_row]
  ∧ Fund_Name gof_row = Fund_Ticker gof_row ∧ Date gof_row = "2024-03-15".
Proof.
  assert (Hb : build_report yf_demo gof_xlsx 19797 = Ok [gof_row])
    by (vm_compute; reflexivity).
  pose proof (rows_are_named_and_dated yf_demo gof_xlsx 19797 [gof_row] Hb)
    as Hrows.
  apply Forall_cons in Hrows as [(i & Hi & _ & Hname & Hdate) _].
  split_and!; [exact Hb | | exact Hdate].
  apply Hname. vm_compute in Hi. by injection Hi as <-.
Defined.

Lemma get_close_price_total (yf : Provider) (ticker date_ start end_ : string) :
  (∀ msg, history yf ticker start end_ ≠ Raise (BaseException msg)) →
  ∃ p, get_close_price yf ticker date_ start end_ = Ok p.
Proof.
  intros Hh.
  destruct (get_close_price yf ticker date_ start end_) as [p|[msg|msg]] eqn:Hp;
    [eauto | |].
  - by apply get_close_price_no_Exception in Hp.
  - apply get_close_price_Raise in Hp. by apply Hh in Hp.
Qed.

(** Price requests that fail never cost the report.  Let every frame the
    provider returns carry each label once (daily bars, balance sheets with
    each line item and each report date once).  When [info] and the
    quarterly balance sheet answer for every entry, and no price request is
    interrupted, the run builds a report with one row per entry, whichever
    price requests raise. *)
Theorem price_faults_never_cost_the_report
    (yf : Provider) (xlsx : list TickerRow) (target_date : date) :
  (∀ entry, entry ∈ dropna xlsx →
     (∃ i, info yf (fund_ticker entry) = Ok i)
     ∧ (∃ b, quarterly_balance_sheet yf (fund_ticker entry) = Ok b
             ∧ unique_labels b)) →
  (∀ t s e data, history yf t s e = Ok data → daily_bars data) →
  (∀ t s e msg, history yf t s e ≠ Raise (BaseException msg)) →
  ∃ rows,
    build_report yf xlsx target_date = Ok rows
    ∧ length rows = length (dropna xlsx).
Proof.
  intros Hfunds _ Hhist. rewrite build_report_loop.
  assert (Hall : Forall (λ entry, ∃ row,
            report_row yf target_date (strftime target_date)
              (strftime (target_date - 2)) (strftime (target_date + 2))
              (item_of entry) = Ok row) (dropna xlsx)).
  { apply Forall_forall. intros entry Hin.
    destruct (Hfunds entry Hin) as [[i Hi] (b & Hb & _)].
    destruct (get_fundamentals_asof_total yf (fund_ticker entry) target_date
                true b Hb) as [f Hf].
    destruct (get_close_price_total yf (fund_ticker entry)
                (strftime target_date) (strftime (target_date - 2))
                (strftime (target_date + 2))) as [p Hp]; [apply Hhist|].
    destruct (get_close_price_total yf (nav_ticker entry)
                (strftime target_date) (strftime (target_date - 2))
                (strftime (target_date + 2))) as [q Hq]; [apply Hhist|].
    by apply (report_row_total yf target_date _ _ _ entry i f p q). }
  apply Forall_exists_Forall2_l in Hall as [rows Hrows].
  exists rows. split.
  - apply for_each_Ok. exists rows. split; [reflexivity|].
    by apply Forall2_fmap_l.
  - symmetry. by eapply Forall2_length.
Qed.

Lemma price_faults_never_cost_the_report_witness :
  get_close_price yf_nav_down "PDI" "2024-03-15" "2024-03-13" "2024-03-17"
  = Ok (Some 9.5%float)
  ∧ get_close_price yf_nav_down "XPDIX" "2024-03-15" "2024-03-13" "2024-03-17"
    = Ok None
  ∧ ∃ rows,
      build_report yf_nav_down demo_xlsx 19797 = Ok rows
      ∧ length rows = length (dropna demo_xlsx).
Proof.
  split; [vm_compute; reflexivity|]. split; [vm_compute; reflexivity|].
  apply price_faults_never_cost_the_report.
  - intros entry _. simpl. split; [destruct (String.eqb _ _); eauto|].
    destruct (String.eqb (fund_ticker entry) "PDI"); eexists;
      (split; [reflexivity|]);
      (split; apply (bool_decide_unpack _); vm_compute; exact I).
  - intros t s e data. simpl. destruct (String.eqb t "PDI"); [|discriminate].
    intros [= <-].
    split; apply (bool_decide_unpack _); vm_compute; exact I.
  - intros t s e msg. simpl. destruct (String.eqb t "PDI"); discriminate.
Defined.

(** ** The provenance note *)

Lemma max_row_ge (ws : Worksheet) (r c : nat) (v : xl_value) :
  ws !! (r, c) = Some v → (r ≤ max_row ws)%nat.
Proof.
  intros Hcell. apply elem_of_map_to_list in Hcell. unfold max_row.
  destruct (map_to_list ws) as [|cell cells] eqn:Hl;
    [by apply not_elem_of_nil in Hcell|].
  apply max_list_elem_of_le. apply list_elem_of_fmap.
  exists ((r, c), v). by split.
Qed.

Lemma max_row_unique (ws : Worksheet) (m : nat) :
  (∃ c v, ws !! (m, c) = Some v) →
  (∀ r c v, ws !! (r, c) = Some v → (r ≤ m)%nat) →
  max_row ws = m.
Proof.
  intros (c & v & Hm) Hle. pose proof (max_row_ge ws m c v Hm) as Hge.
  apply elem_of_map_to_list in Hm. unfold max_row in *.
  destruct (map_to_list ws) as [|cell cells] eqn:Hl;
    [by apply not_elem_of_nil in Hm|].
  assert (Hmax : max_list ((fst ∘ fst) <$> cell :: cells)
                 ∈ (fst ∘ fst) <$> cell :: cells)
    by by apply max_list_elem_of.
  set (M := max_list ((fst ∘ fst) <$> cell :: cells)) in *.
  apply list_elem_of_fmap in Hmax as ([[r' c'] v'] & Heq & Hin).
  rewrite <- Hl in Hin. apply elem_of_map_to_list in Hin.
  apply Hle in Hin. simpl in Heq. lia.
Qed.

(** The note never lands on the report: it is written to column 1 two
    rows below the last row in use, every cell the sheet had keeps its
    value, the row in between stays empty, and the note's row becomes the
    last row in use. *)
Theorem note_is_written_below_the_report (ws : Worksheet) (timestamp : string) :
  (∀ k v, ws !! k = Some v → write_note ws timestamp !! k = Some v)
  ∧ (∀ c, write_note ws timestamp !! ((max_row ws + 1)%nat, c) = None)
  ∧ (∀ k, is_Some (write_note ws timestamp !! k) →
          is_Some (ws !! k) ∨ k = ((max_row ws + 2)%nat, 1%nat))
  ∧ write_note ws timestamp !! ((max_row ws + 2)%nat, 1%nat)
    = Some (XlText ("Downloaded on " +:+ timestamp +:+ ". Method: " +:+ method))
  ∧ max_row (write_note ws timestamp) = (max_row ws + 2)%nat.
Proof.
  assert (Hfree : ∀ r c, (max_row ws < r)%nat → ws !! (r, c) = None).
  { intros r c Hr. destruct (ws !! (r, c)) as [v|] eqn:Hcell; [|reflexivity].
    apply max_row_ge in Hcell. lia. }
  unfold write_note. cbv zeta. split_and!.
  - intros [r c] v Hcell. rewrite lookup_insert_ne; [exact Hcell|].
    intros [= <- <-]. rewrite Hfree in Hcell by lia. discriminate.
  - intros c. rewrite lookup_insert_ne by (intros [= ? ?]; lia).
    apply Hfree. lia.
  - intros k Hk. destruct (decide (k = ((max_row ws + 2)%nat, 1%nat))) as [->|Hne];
      [by right|].
    left. by rewrite lookup_insert_ne in Hk.
  - apply lookup_insert_eq.
  - apply max_row_unique.
    + eexists _, _. apply lookup_insert_eq.
    + intros r c v Hcell.
      destruct (decide (((max_row ws + 2)%nat, 1%nat) = (r, c))) as [[= <- <-]|Hne];
        [lia|].
      rewrite lookup_insert_ne in Hcell by exact Hne.
      apply max_row_ge in Hcell. lia.
Qed.

Example note_on_small_sheet :
  max_row small_sheet = 2%nat
  ∧ write_note small_sheet "2024-03-16 09:30:00" !! (4%nat, 1%nat)
    = Some (XlText ("Downloaded on 2024-03-16 09:30:00. Method: " +:+ method))
  ∧ max_row ∅ = 1%nat.
Proof. split_and!; vm_compute; reflexivity. Qed.
